(** * DC tour planner: MCP tool invoker, query orchestrator, OAuth flow

    A shallow embedding of the TypeScript sources of the two Mastra demo
    applications (the local-subprocess variant under [mastra/] and the hosted,
    OAuth-protected variant under [mastra-oauth/]) together with the
    properties their specification states about them.

    Conventions.
    - JavaScript strings are byte strings ([string], UTF-8 encoded).
    - JavaScript numbers are IEEE 754 binary64 values ([float], the kernel's
      primitive floats), so arithmetic rounds exactly as the program's does.
    - A value that may be [undefined] or [null] is an [option].
    - An [async] function is a computation in the monad [M] below: it reads
      and updates the process state and either returns or throws. *)

From Stdlib Require Import ZArith List String Ascii Bool Lia.
From Stdlib Require Import PrimFloat FloatOps SpecFloat Uint63 DecimalString.
From stdpp Require Import base option list strings gmap.

Set Warnings "-inexact-float".

Local Open Scope string_scope.
Local Open Scope list_scope.
Local Open Scope Z_scope.

(** ** JavaScript values and host functions *)

Module Js.

(** A JavaScript number. *)
Definition number : Type := float.

(** Truthiness of a possibly-undefined string: [undefined] and the empty
    string are falsy. *)
Definition truthy (s : option string) : bool :=
  match s with
  | Some (String _ _) => true
  | _ => false
  end.

(** [a || b] on possibly-undefined strings. *)
Definition or (a b : option string) : option string :=
  if truthy a then a else b.

(** [a || 'literal'] where the right operand is a string literal. *)
Definition or_default (a : option string) (b : string) : string :=
  match a with
  | Some (String c s) => String c s
  | _ => b
  end.

(** Truthiness of a possibly-undefined object or array: every object is
    truthy, an empty array too. *)
Definition defined {A} (v : option A) : bool :=
  match v with
  | Some _ => true
  | None => false
  end.

(** Thrown values: [new Error(msg)] and the engine's own [TypeError]. *)
Inductive error : Type :=
| Error (message : string)
| TypeError (message : string).

Definition message (e : error) : string :=
  match e with
  | Error m => m
  | TypeError m => m
  end.

(** *** Percent encoding *)

Definition hex_digit (n : N) : ascii :=
  if (n <? 10)%N then ascii_of_N (48 + n) else ascii_of_N (55 + n).

Definition percent_byte (c : ascii) : string :=
  let n := N_of_ascii c in
  String "%" (String (hex_digit (n / 16)) (String (hex_digit (n mod 16)) "")).

Fixpoint percent_encode (keep : ascii -> bool) (s : string) : string :=
  match s with
  | "" => ""
  | String c s' =>
      (if keep c then String c "" else percent_byte c) +:+ percent_encode keep s'
  end.

Definition in_range (lo hi : N) (c : ascii) : bool :=
  let n := N_of_ascii c in ((lo <=? n) && (n <=? hi))%N.

Definition is_alnum (c : ascii) : bool :=
  in_range 48 57 c || in_range 65 90 c || in_range 97 122 c.

Definition one_of (cs : string) (c : ascii) : bool :=
  existsb (Ascii.eqb c) (list_ascii_of_string cs).

(** [encodeURIComponent]: everything but [A-Z a-z 0-9 - _ . ! ~ * ' ( )]. *)
Definition encodeURIComponent (s : string) : string :=
  percent_encode (fun c => is_alnum c || one_of "-_.!~*'()" c) s.

(** The [application/x-www-form-urlencoded] byte serializer used by
    [URLSearchParams.prototype.toString]: a space becomes [+]; letters,
    digits and [* - . _] stay; every other byte is percent-encoded. *)
Fixpoint urlencoded_serialize (s : string) : string :=
  match s with
  | "" => ""
  | String c s' =>
      (if Ascii.eqb c " " then "+"
       else if is_alnum c || one_of "*-._" c then String c ""
       else percent_byte c) +:+ urlencoded_serialize s'
  end.

(** [new URLSearchParams(record).toString()]: the entries in insertion
    order, [name=value] joined by [&]. *)
Fixpoint URLSearchParams_toString (entries : list (string * string)) : string :=
  match entries with
  | [] => ""
  | [(k, v)] => urlencoded_serialize k +:+ "=" +:+ urlencoded_serialize v
  | (k, v) :: rest =>
      urlencoded_serialize k +:+ "=" +:+ urlencoded_serialize v +:+ "&"
      +:+ URLSearchParams_toString rest
  end.

(** Parsing, as [new URLSearchParams(text)] does it: split at [&], drop empty
    pieces, split each piece at its first [=], turn [+] into a space and
    percent-decode both halves. *)
Fixpoint split_on (sep : ascii) (s : string) : list string :=
  match s with
  | "" => [""]
  | String c s' =>
      if Ascii.eqb c sep then "" :: split_on sep s'
      else match split_on sep s' with
           | [] => [String c ""]
           | piece :: pieces => String c piece :: pieces
           end
  end.

Fixpoint split_first (sep : ascii) (s : string) : string * string :=
  match s with
  | "" => ("", "")
  | String c s' =>
      if Ascii.eqb c sep then ("", s')
      else let '(a, b) := split_first sep s' in (String c a, b)
  end.

Definition hex_value (c : ascii) : option N :=
  let n := N_of_ascii c in
  if in_range 48 57 c then Some (n - 48)%N
  else if in_range 65 70 c then Some (n - 55)%N
  else if in_range 97 102 c then Some (n - 87)%N
  else None.

Fixpoint percent_decode (s : string) : string :=
  match s with
  | "" => ""
  | String c s' =>
      match Ascii.eqb c "%", s' with
      | true, String h (String l rest) =>
          match hex_value h, hex_value l with
          | Some a, Some b => String (ascii_of_N (16 * a + b)) (percent_decode rest)
          | _, _ => String c (percent_decode s')
          end
      | _, _ => String c (percent_decode s')
      end
  end.

Fixpoint plus_to_space (s : string) : string :=
  match s with
  | "" => ""
  | String c s' => String (if Ascii.eqb c "+" then " "%char else c) (plus_to_space s')
  end.

Definition urlencoded_decode (s : string) : string :=
  percent_decode (plus_to_space s).

Definition URLSearchParams (text : string) : list (string * string) :=
  let text := match text with
              | String c rest => if Ascii.eqb c "?" then rest else text
              | "" => ""
              end in
  map (fun piece => let '(k, v) := split_first "=" piece in
                    (urlencoded_decode k, urlencoded_decode v))
      (filter (fun piece => negb (String.eqb piece "")) (split_on "&" text)).

(** [params.get(name)]: the first value with that name, or [null]. *)
Fixpoint get (name : string) (params : list (string * string)) : option string :=
  match params with
  | [] => None
  | (k, v) :: rest => if String.eqb k name then Some v else get name rest
  end.

(** [str.substring(1)]. *)
Definition substring1 (s : string) : string :=
  match s with
  | "" => ""
  | String _ s' => s'
  end.

(** *** Numbers

    [Number.prototype.toFixed] and [Math.round] are defined by ECMAScript on
    the exact real value of their argument.  A finite nonzero binary64 value
    is [(-1)^s * m * 2^e] ([Prim2SF]), so both are computed here with exact
    integer arithmetic. *)

(** The integer nearest to [num / den] (for [den > 0]); of two equally near,
    the larger. *)
Definition round_half_up (num den : Z) : Z := (2 * num + den) / (2 * den).

(** The magnitude of a finite value as a fraction [num / den]. *)
Definition magnitude (m : positive) (e : Z) : Z * Z :=
  if 0 <=? e then (Z.pos m * 2 ^ e, 1) else (Z.pos m, 2 ^ (- e)).

Definition digits (n : Z) : string :=
  NilZero.string_of_uint (N.to_uint (Z.to_N n)).

Fixpoint zeros (k : nat) : string :=
  match k with
  | O => ""
  | S k' => String "0" (zeros k')
  end.

(** Steps 10.a-10.c of [toFixed]: the decimal digits of [n] with a point
    before the last [f] of them, padded with leading zeros to [f + 1]. *)
Definition fixed_digits (n : Z) (f : nat) : string :=
  let m := digits n in
  match f with
  | O => m
  | _ =>
      let m := zeros (f + 1 - String.length m) +:+ m in
      let k := String.length m in
      substring 0 (k - f) m +:+ "." +:+ substring (k - f) f m
  end.

(** Magnitudes of [10^21] and more are printed by [Number::toString] in
    exponential notation, with the fewest digits [s] such that [s * 10^p]
    still reads back as the same binary64 value and, among those, the nearest.
    A decimal reads back as [m * 2^e] when it lies between the midpoints to the
    neighbouring values (the midpoints included when [m] is even). *)
Definition reads_back (m : positive) (e : Z) (v : Z) : bool :=
  let x := Z.pos m * 2 ^ e in
  let up := 2 ^ (e - 1) in
  let down := if (m =? 2 ^ 52)%positive then 2 ^ (e - 2) else 2 ^ (e - 1) in
  if Z.even (Z.pos m)
  then (x - down <=? v) && (v <=? x + up)
  else (x - down <? v) && (v <? x + up).

Fixpoint shortest (more : nat) (k : Z) (m : positive) (e : Z) : Z * Z :=
  let x := Z.pos m * 2 ^ e in
  let p := Z.of_nat (String.length (digits x)) - k in
  let s1 := x / 10 ^ p in
  let s2 := s1 + 1 in
  let d1 := x - s1 * 10 ^ p in
  let d2 := s2 * 10 ^ p - x in
  let nearer :=
    if d1 <? d2 then s1 else if d2 <? d1 then s2
    else if Z.even s1 then s1 else s2 in
  let ok1 := reads_back m e (s1 * 10 ^ p) in
  let ok2 := reads_back m e (s2 * 10 ^ p) in
  match more with
  | O => (nearer, p)
  | S more' =>
      if ok1 && ok2 then (nearer, p)
      else if ok1 then (s1, p)
      else if ok2 then (s2, p)
      else shortest more' (k + 1) m e
  end.

Fixpoint drop_zeros (cs : list ascii) : list ascii :=
  match cs with
  | c :: cs' => if Ascii.eqb c "0" then drop_zeros cs' else cs
  | [] => []
  end.

Definition strip_trailing_zeros (s : string) : string :=
  string_of_list_ascii (rev (drop_zeros (rev (list_ascii_of_string s)))).

Definition exponential (m : positive) (e : Z) : string :=
  let '(s, p) := shortest 16 1 m e in
  let n := Z.of_nat (String.length (digits s)) + p in
  match strip_trailing_zeros (digits s) with
  | String c "" => String c "" +:+ "e+" +:+ digits (n - 1)
  | String c rest => String c "" +:+ "." +:+ rest +:+ "e+" +:+ digits (n - 1)
  | "" => ""
  end.

(** [x.toFixed(f)]. *)
Definition toFixed (x : number) (f : nat) : string :=
  match Prim2SF x with
  | S754_nan => "NaN"
  | S754_infinity false => "Infinity"
  | S754_infinity true => "-Infinity"
  | S754_zero _ => fixed_digits 0 f
  | S754_finite s m e =>
      let '(num, den) := magnitude m e in
      (if s then "-" else "") +:+
      (if 10 ^ 21 * den <=? num then exponential m e
       else fixed_digits (round_half_up (num * 10 ^ Z.of_nat f) den) f)
  end.

(** The binary64 value of an integer of magnitude at most [2^53]. *)
Definition of_Z (n : Z) : number :=
  let a := PrimFloat.of_uint63 (Uint63.of_Z (Z.abs n)) in
  if n <? 0 then PrimFloat.opp a else a.

(** [Math.round(x)]: the integral value nearest to [x], the one towards
    positive infinity of two equally near; NaN, infinities, zeros and integral
    values are returned unchanged, and a result of zero keeps the sign of [x]. *)
Definition Math_round (x : number) : number :=
  match Prim2SF x with
  | S754_finite s m e =>
      if 0 <=? e then x
      else
        let n := round_half_up (if s then Z.neg m else Z.pos m) (2 ^ (- e)) in
        if n =? 0 then (if s then PrimFloat.neg_zero else PrimFloat.zero)
        else of_Z n
  | _ => x
  end.

End Js.

(** ** Data exchanged with the MCP server *)

Definition Position : Type := (Js.number * Js.number)%type.

Record LngLat : Type := { longitude : Js.number; latitude : Js.number }.

(** A GeoJSON feature as the geocoding tools return it. *)
Record Properties : Type := {
  name : option string;
  full_address : option string;
  place_formatted : option string;
}.

Record Geometry : Type := { coordinates : Position }.

Module Feature.
Record t : Type := { properties : Properties; geometry : Geometry }.
End Feature.

(** One route of the directions tool. *)
Module Route.
Record t : Type := {
  geometry : list Position;
  distance : Js.number;
  duration : Js.number;
}.
End Route.

(** [result.structuredContent as any]: possibly absent, and so are its
    [features] and [routes] members. *)
Record StructuredContent : Type := {
  features : option (list Feature.t);
  routes : option (list Route.t);
}.

(** A content block of a tool result; only its [type] and, for a text block,
    its [text] are read. *)
Inductive ContentBlock : Type :=
| TextContent (text : string)
| ImageContent (data mimeType : string)
| ResourceContent (uri : string).

Record CallToolResult : Type := {
  isError : bool;
  content : list ContentBlock;
  structuredContent : option StructuredContent;
}.

(** The [arguments] object of each of the three tool calls. *)
Inductive ToolArgs : Type :=
| SearchAndGeocodeArgs (q : string) (proximity : LngLat) (country : list string)
| CategorySearchArgs (category : string) (proximity : LngLat)
    (country : list string) (limit : Z) (format : string)
| DirectionsArgs (coordinates : list LngLat) (routing_profile geometries : string).

Module CallToolRequest.
Record t : Type := { method : string; name : string; arguments : ToolArgs }.
End CallToolRequest.

Inductive Transport : Type :=
| StreamableHTTP (url : string) (authorization : string)
| Stdio (command : string) (args : list string).

(** What the process does on the wire, in order. *)
Inductive Event : Type :=
| Connected (via : Transport)
| Requested (request : CallToolRequest.t) (response : Js.error + CallToolResult).

(** ** Results handed to callers *)

(** What [geocodeLocation] returns. *)
Module Geocoded.
Record t : Type := { name : option string; coordinates : Position }.
End Geocoded.

Module SearchResult.
Record t : Type := {
  name : option string;
  coordinates : Position;
  address : option string;
}.
End SearchResult.

(** [RouteData] of the agent library ([distance] is a formatted string). *)
Module AgentRouteData.
Record t : Type := {
  locations : list Geocoded.t;
  route : list Position;
  distance : string;
  duration : Js.number;
}.
End AgentRouteData.

(** ** Process state and the monad of asynchronous functions *)

(** History of the assignments to the two capture variables (a ghost
    variable: the program does not keep it). *)
Inductive Capture : Type :=
| CapturedSearch (results : list SearchResult.t)
| CapturedRoute (data : AgentRouteData.t).

Record World : Type := mkWorld {
  (** the remote server: its answer to a request, given all that came before *)
  server : list Event -> CallToolRequest.t -> Js.error + CallToolResult;
  trace : list Event;
  (** [let mcpClient: Client | null] of the local variant *)
  mcpClient : bool;
  (** [let capturedSearchResults], [let capturedRouteData] of the agent library *)
  capturedSearchResults : option (list SearchResult.t);
  capturedRouteData : option AgentRouteData.t;
  captures : list Capture;
}.

Definition M (A : Type) : Type := World -> (Js.error + A) * World.

Definition ret {A} (a : A) : M A := fun w => (inr a, w).

Definition throw {A} (e : Js.error) : M A := fun w => (inl e, w).

Definition bind {A B} (m : M A) (k : A -> M B) : M B :=
  fun w => match m w with
           | (inr a, w') => k a w'
           | (inl e, w') => (inl e, w')
           end.

(** [try { m } catch (error) { handler }]. *)
Definition try_catch {A} (m : M A) (handler : Js.error -> M A) : M A :=
  fun w => match m w with
           | (inr a, w') => (inr a, w')
           | (inl e, w') => handler e w'
           end.

(** Runs [m] and hands back how it ended, as a settled promise does. *)
Definition settle {A} (m : M A) : M (Js.error + A) :=
  fun w => let '(r, w') := m w in (inr r, w').

Definition lift {A} (r : Js.error + A) : M A := fun w => (r, w).

Notation "'let*' x ':=' m 'in' k" := (bind m (fun x => k))
  (at level 10, x pattern, m at level 100, k at level 200).

(** The state [w] after the events [evs]. *)
Definition after (evs : list Event) (w : World) : World :=
  mkWorld (server w) (trace w ++ evs) (mcpClient w)
    (capturedSearchResults w) (capturedRouteData w) (captures w).

Definition log (e : Event) : M unit :=
  fun w => (inr tt, mkWorld (server w) (trace w ++ [e]) (mcpClient w)
                      (capturedSearchResults w) (capturedRouteData w) (captures w)).

(** [await client.request(request, CallToolResultSchema)]: one round trip,
    which the server answers or fails. *)
Definition client_request (request : CallToolRequest.t) : M CallToolResult :=
  fun w => let response := server w (trace w) request in
           bind (log (Requested request response)) (fun _ => lift response) w.

(** ** The operations of [lib/mcp.ts]

    The file exists in two variants, one per application (the hosted one in
    [src/unnamed/part_002], the local one in the second part of
    [src/mastra/src/types/index.ts]).  They differ in how they reach the
    server; what they do with a tool result is the same text in both. *)

Module McpResult.

(** The [// Check for errors] block. *)
Definition check_for_errors (result : CallToolResult) : Js.error + unit :=
  if isError result then
    match content result with
    | [] => inl (Js.TypeError "Cannot read properties of undefined (reading 'type')")
    | TextContent text :: _ => inl (Js.Error ("MCP tool error: " +:+ text))
    | _ :: _ => inl (Js.Error "MCP tool returned an error")
    end
  else inr tt.

(** [!data || !data.features || data.features.length === 0] leaves the
    features only when there is at least one. *)
Definition features_of (data : option StructuredContent) : list Feature.t :=
  match data with
  | Some d => match features d with Some fs => fs | None => [] end
  | None => []
  end.

Definition routes_of (data : option StructuredContent) : list Route.t :=
  match data with
  | Some d => match routes d with Some rs => rs | None => [] end
  | None => []
  end.

Definition geocoded (address : string) (result : CallToolResult)
  : Js.error + Geocoded.t :=
  match check_for_errors result with
  | inl e => inl e
  | inr _ =>
      match features_of (structuredContent result) with
      | [] => inl (Js.Error ("Could not geocode: " +:+ address))
      | feature :: _ =>
          inr {| Geocoded.name :=
                   Js.or (name (Feature.properties feature))
                         (full_address (Feature.properties feature));
                 Geocoded.coordinates := coordinates (Feature.geometry feature) |}
      end
  end.

Definition to_search_result (feature : Feature.t) : SearchResult.t :=
  {| SearchResult.name :=
       Js.or (name (Feature.properties feature))
             (full_address (Feature.properties feature));
     SearchResult.coordinates := coordinates (Feature.geometry feature);
     SearchResult.address :=
       Js.or (full_address (Feature.properties feature))
             (place_formatted (Feature.properties feature)) |}.

Definition searched (result : CallToolResult) : Js.error + list SearchResult.t :=
  match check_for_errors result with
  | inl e => inl e
  | inr _ =>
      match features_of (structuredContent result) with
      | [] => inr []
      | fs => inr (map to_search_result fs)
      end
  end.

Definition routed (result : CallToolResult) : Js.error + Route.t :=
  match check_for_errors result with
  | inl e => inl e
  | inr _ =>
      match routes_of (structuredContent result) with
      | [] => inl (Js.Error "No route found")
      | r :: _ => inr r
      end
  end.

(** The tool and the arguments of each operation, and the request they make. *)
Definition geocode_arguments (address : string) : ToolArgs :=
  SearchAndGeocodeArgs address
    {| longitude := (-77.0369)%float; latitude := 38.9072%float |} ["us"].

Definition category_arguments (category : string) (proximity : LngLat) : ToolArgs :=
  CategorySearchArgs category proximity ["us"] 10 "json_string".

Definition directions_arguments (coordinates : list Position) : ToolArgs :=
  DirectionsArgs
    (map (fun '(lng, lat) => {| longitude := lng; latitude := lat |}) coordinates)
    "walking" "geojson".

Definition tools_call (name : string) (arguments : ToolArgs) : CallToolRequest.t :=
  {| CallToolRequest.method := "tools/call";
     CallToolRequest.name := name;
     CallToolRequest.arguments := arguments |}.

Definition geocode_request (address : string) : CallToolRequest.t :=
  tools_call "search_and_geocode_tool" (geocode_arguments address).

Definition category_request (category : string) (proximity : LngLat)
  : CallToolRequest.t :=
  tools_call "category_search_tool" (category_arguments category proximity).

Definition directions_request (coordinates : list Position) : CallToolRequest.t :=
  tools_call "directions_tool" (directions_arguments coordinates).

End McpResult.

(** *** Hosted variant ([src/unnamed/part_002]): a fresh connection per call,
    every request carrying [Authorization: Bearer <token>]. *)

Module McpHosted.

(** The connection a call opens. *)
Definition connection (accessToken : string) : Event :=
  Connected (StreamableHTTP "https://mcp.mapbox.com/mcp" ("Bearer " +:+ accessToken)).

Definition getMCPClient (accessToken : string) : M unit :=
  log (connection accessToken).

Definition callMCPTool (toolName : string) (toolArgs : ToolArgs) (accessToken : string)
  : M CallToolResult :=
  let* _ := getMCPClient accessToken in
  client_request (McpResult.tools_call toolName toolArgs).

(** What the server answers to [request] when it is sent from state [w] over
    a new connection. *)
Definition answer (accessToken : string) (request : CallToolRequest.t) (w : World)
  : Js.error + CallToolResult :=
  server w (trace w ++ [connection accessToken]) request.

Definition geocodeLocation (address accessToken : string) : M Geocoded.t :=
  let* result :=
    callMCPTool "search_and_geocode_tool" (McpResult.geocode_arguments address)
      accessToken in
  lift (McpResult.geocoded address result).

Definition categorySearch (category : string) (proximity : LngLat) (accessToken : string)
  : M (list SearchResult.t) :=
  let* result :=
    callMCPTool "category_search_tool" (McpResult.category_arguments category proximity)
      accessToken in
  lift (McpResult.searched result).

Definition calculateRoute (coordinates : list Position) (accessToken : string)
  : M Route.t :=
  let* result :=
    callMCPTool "directions_tool" (McpResult.directions_arguments coordinates)
      accessToken in
  lift (McpResult.routed result).

End McpHosted.

(** *** Local variant ([src/mastra/src/types/index.ts], second part): one
    subprocess, connected on first use and kept in [mcpClient]. *)

Module McpLocal.

Definition getMCPClient : M unit :=
  fun w =>
    if mcpClient w then (inr tt, w)
    else log (Connected (Stdio "npx" ["-y"; "@mapbox/mcp-server"]))
           (mkWorld (server w) (trace w) true
              (capturedSearchResults w) (capturedRouteData w) (captures w)).

(** The connection opened on first use, and what the server answers to
    [request] when it is sent from state [w]. *)
Definition connection (w : World) : list Event :=
  if mcpClient w then [] else [Connected (Stdio "npx" ["-y"; "@mapbox/mcp-server"])].

Definition answer (request : CallToolRequest.t) (w : World)
  : Js.error + CallToolResult :=
  server w (trace w ++ connection w) request.

Definition geocodeLocation (address : string) : M Geocoded.t :=
  let* _ := getMCPClient in
  let* result := client_request (McpResult.geocode_request address) in
  lift (McpResult.geocoded address result).

Definition categorySearch (category : string) (proximity : LngLat)
  : M (list SearchResult.t) :=
  let* _ := getMCPClient in
  let* result := client_request (McpResult.category_request category proximity) in
  lift (McpResult.searched result).

Definition calculateRoute (coordinates : list Position) : M Route.t :=
  let* _ := getMCPClient in
  let* result := client_request (McpResult.directions_request coordinates) in
  lift (McpResult.routed result).

End McpLocal.

(** ** The agent library ([src/unnamed/part_001]) *)

Module Agent.

Inductive ResponseType : Type := search_results | route | text.

Module AgentResponse.
Record t : Type := {
  type : ResponseType;
  searchResults : option (list SearchResult.t);
  routeData : option AgentRouteData.t;
  text : string;
}.
End AgentResponse.

(** The three tools the agent is given, by [id], with their input. *)
Inductive ToolCall : Type :=
| search_location (query : string)
| search_category (category near : string)
| plan_route (locations : list string).

(** What a tool's [execute] returns (its [outputSchema]). *)
Inductive ToolOutput : Type :=
| LocationOutput (result : Geocoded.t)
| CategoryOutput (count : nat) (results : list SearchResult.t)
| RouteOutput (distance : string) (duration : Js.number).

(** How a tool call ends for the agent. *)
Inductive Outcome : Type :=
| Returned (output : ToolOutput)
| Threw (e : Js.error)
| InvalidInput.

(** One run of [dcAgent.generate(query)].  The model behind the agent is
    external: all that is fixed here is that it may call the tools it was
    given, any number of times and in any order, see how each call ended, and
    finally answer with [result.text] or fail. *)
Inductive Run : Type :=
| Respond (answer : option string)
| Fail (e : Js.error)
| Invoke (call : ToolCall) (next : Outcome -> Run).

Definition assign_capturedSearchResults (v : option (list SearchResult.t)) : M unit :=
  fun w => (inr tt, mkWorld (server w) (trace w) (mcpClient w)
                      v (capturedRouteData w)
                      (match v with
                       | Some results => captures w ++ [CapturedSearch results]
                       | None => captures w
                       end)).

Definition assign_capturedRouteData (v : option AgentRouteData.t) : M unit :=
  fun w => (inr tt, mkWorld (server w) (trace w) (mcpClient w)
                      (capturedSearchResults w) v
                      (match v with
                       | Some data => captures w ++ [CapturedRoute data]
                       | None => captures w
                       end)).

(** [await Promise.all(calls)]: every call is started; the result is all the
    values, or the rejection of a call that failed.  The calls run here in
    list order and the rejection kept is the first in that order. *)
Fixpoint settle_all {A} (calls : list (M A)) : M (list (Js.error + A)) :=
  match calls with
  | [] => ret []
  | c :: calls' =>
      let* r := settle c in
      let* rs := settle_all calls' in
      ret (r :: rs)
  end.

Fixpoint all_fulfilled {A} (rs : list (Js.error + A)) : Js.error + list A :=
  match rs with
  | [] => inr []
  | inl e :: _ => inl e
  | inr a :: rs' =>
      match all_fulfilled rs' with
      | inl e => inl e
      | inr l => inr (a :: l)
      end
  end.

Definition Promise_all {A} (calls : list (M A)) : M (list A) :=
  let* rs := settle_all calls in lift (all_fulfilled rs).

Section Tools.

Variable accessToken : string.

(** [createSearchLocationTool(accessToken).execute]. *)
Definition searchLocationTool (query : string) : M ToolOutput :=
  let* result := McpHosted.geocodeLocation query accessToken in
  ret (LocationOutput result).

(** [createSearchCategoryTool(accessToken).execute]. *)
Definition searchCategoryTool (category near : string) : M ToolOutput :=
  let* nearLocation := McpHosted.geocodeLocation near accessToken in
  let* results :=
    McpHosted.categorySearch category
      {| longitude := fst (Geocoded.coordinates nearLocation);
         latitude := snd (Geocoded.coordinates nearLocation) |}
      accessToken in
  let* _ := assign_capturedSearchResults (Some results) in
  ret (CategoryOutput (length results) results).

(** The record [createPlanRouteTool(accessToken).execute] captures. *)
Definition route_data (geocoded : list Geocoded.t) (r : Route.t) : AgentRouteData.t :=
  {| AgentRouteData.locations := geocoded;
     AgentRouteData.route := Route.geometry r;
     AgentRouteData.distance :=
       Js.toFixed (Route.distance r * 0.000621371)%float 2;
     AgentRouteData.duration := Js.Math_round (Route.duration r / 60)%float |}.

(** [createPlanRouteTool(accessToken).execute]. *)
Definition planRouteTool (locations : list string) : M ToolOutput :=
  let* geocoded :=
    Promise_all (map (fun loc => McpHosted.geocodeLocation loc accessToken) locations) in
  let coords := map Geocoded.coordinates geocoded in
  let* r := McpHosted.calculateRoute coords accessToken in
  let data := route_data geocoded r in
  let* _ := assign_capturedRouteData (Some data) in
  ret (RouteOutput (AgentRouteData.distance data) (AgentRouteData.duration data)).

(** The tools' [inputSchema]: only [plan-route] constrains more than the
    types do ([z.array(z.string()).min(2)]). *)
Definition inputSchema (call : ToolCall) : bool :=
  match call with
  | plan_route locations => (2 <=? length locations)%nat
  | _ => true
  end.

Definition execute (call : ToolCall) : M ToolOutput :=
  match call with
  | search_location query => searchLocationTool query
  | search_category category near => searchCategoryTool category near
  | plan_route locations => planRouteTool locations
  end.

(** A tool call made by the agent: the input is checked against the schema,
    then [execute] runs; the agent is told how it ended. *)
Definition invoke (call : ToolCall) : M Outcome :=
  if inputSchema call then
    let* r := settle (execute call) in
    ret (match r with inr output => Returned output | inl e => Threw e end)
  else ret InvalidInput.

(** [await dcAgent.generate(query)], yielding [result.text]. *)
Fixpoint generate (run : Run) : M (option string) :=
  match run with
  | Respond answer => ret answer
  | Fail e => throw e
  | Invoke call next => let* outcome := invoke call in generate (next outcome)
  end.

End Tools.

Definition response_type (searched : option (list SearchResult.t))
    (routed : option AgentRouteData.t) : ResponseType :=
  let type := text in
  let type := if Js.defined searched then search_results else type in
  let type := if Js.defined routed then route else type in
  type.

(** [processNaturalLanguageQuery(query, accessToken)]; [model] is what the
    language model makes of a query. *)
Definition processNaturalLanguageQuery (model : string -> Run)
    (query accessToken : string) : M AgentResponse.t :=
  let* _ := assign_capturedSearchResults None in
  let* _ := assign_capturedRouteData None in
  let* result_text := generate accessToken (model query) in
  fun w =>
    ret {| AgentResponse.type :=
             response_type (capturedSearchResults w) (capturedRouteData w);
           AgentResponse.searchResults := capturedSearchResults w;
           AgentResponse.routeData := capturedRouteData w;
           AgentResponse.text := Js.or_default result_text "No response" |} w.

End Agent.

(** ** The plan-route handler ([src/unnamed/part_005], second part) *)

Module PlanRoute.

Record Attraction : Type := { id : string; name : string; address : string }.

Module Location.
Record t : Type := { name : string; coordinates : Position }.
End Location.

(** [{ type: 'Feature', properties: {}, geometry }]. *)
Record LineFeature : Type := { type : string; geometry : list Position }.

Module RouteData.
Record t : Type := {
  locations : list Location.t;
  route : LineFeature;
  distance : Js.number;
  duration : Js.number;
}.
End RouteData.

Inductive Body : Type :=
| ErrorBody (error : string)
| RouteBody (data : RouteData.t).

(** [NextResponse.json(body, { status })]. *)
Record Response : Type := { body : Body; status : Z }.

(** The [for (const attraction of attractions)] loop; [inl] is the response
    of the [return] inside its [catch]. *)
Fixpoint geocode_attractions (attractions : list Attraction)
    (locations : list Location.t) : M (Response + list Location.t) :=
  match attractions with
  | [] => ret (inr locations)
  | attraction :: rest =>
      let* r := settle (McpLocal.geocodeLocation (address attraction)) in
      match r with
      | inr location =>
          geocode_attractions rest
            (locations ++ [{| Location.name := name attraction;
                              Location.coordinates := Geocoded.coordinates location |}])
      | inl _ =>
          ret (inl {| body := ErrorBody ("Failed to geocode " +:+ name attraction);
                      status := 500 |})
      end
  end.

Definition route_data (locations : list Location.t) (r : Route.t) : RouteData.t :=
  {| RouteData.locations := locations;
     RouteData.route := {| type := "Feature"; geometry := Route.geometry r |};
     RouteData.distance := (Route.distance r * 0.000621371)%float;
     RouteData.duration := Js.Math_round (Route.duration r / 60)%float |}.

(** [POST(request)], given the [attractions] member of the request body. *)
Definition POST (attractions : option (list Attraction)) : M Response :=
  try_catch
    (match attractions with
     | None => ret {| body := ErrorBody "At least 2 attractions are required";
                      status := 400 |}
     | Some attractions =>
         if (length attractions <? 2)%nat then
           ret {| body := ErrorBody "At least 2 attractions are required";
                  status := 400 |}
         else
           let* geocoded := geocode_attractions attractions [] in
           match geocoded with
           | inl response => ret response
           | inr locations =>
               let coordinates := map Location.coordinates locations in
               let* r := McpLocal.calculateRoute coordinates in
               ret {| body := RouteBody (route_data locations r); status := 200 |}
           end
     end)
    (fun error => ret {| body := ErrorBody (Js.message error); status := 500 |}).

End PlanRoute.

(** ** The OAuth flow ([src/mastra-oauth/src/lib/oauth.ts],
    [src/mastra-oauth/src/app/page.tsx] and the callback route
    [src/unnamed/part_003]) *)

Module OAuth.

(** The two build-time settings read from [process.env]. *)
Record Env : Type := {
  NEXT_PUBLIC_MAPBOX_OAUTH_CLIENT_ID : option string;
  NEXT_PUBLIC_OAUTH_REDIRECT_URI : option string;
}.

Record Config : Type := {
  authorizationEndpoint : string;
  tokenEndpoint : string;
  registrationEndpoint : string;
  clientId : string;
  redirectUri : string;
  scope : string;
}.

Definition OAUTH_CONFIG (env : Env) : Config :=
  {| authorizationEndpoint := "https://api.mapbox.com/oauth/authorize";
     tokenEndpoint := "https://mcp.mapbox.com/oauth/token";
     registrationEndpoint := "https://api.mapbox.com/oauth/register";
     clientId := Js.or_default (NEXT_PUBLIC_MAPBOX_OAUTH_CLIENT_ID env) "";
     redirectUri :=
       Js.or_default (NEXT_PUBLIC_OAUTH_REDIRECT_URI env)
         "http://localhost:3000/auth/callback";
     scope := "styles:tiles styles:read fonts:read datasets:read" |}.

(** [getAuthorizationUrl(state, clientId?)]. *)
Definition getAuthorizationUrl (env : Env) (state : string) (clientId : option string)
  : string :=
  let params :=
    [("response_type", "code");
     ("client_id", Js.or_default clientId (OAuth.clientId (OAUTH_CONFIG env)));
     ("redirect_uri", redirectUri (OAUTH_CONFIG env));
     ("scope", scope (OAUTH_CONFIG env));
     ("state", state)] in
  authorizationEndpoint (OAUTH_CONFIG env) +:+ "?" +:+ Js.URLSearchParams_toString params.

(** *** Requests to the authorization server *)

Record ClientRegistration : Type := {
  client_name : string;
  redirect_uris : list string;
  grant_types : list string;
  response_types : list string;
  token_endpoint_auth_method : string;
}.

Inductive RequestBody : Type :=
| Form (encoded : string)
| Json (registration : ClientRegistration).

Record FetchRequest : Type := {
  url : string;
  method : string;
  content_type : string;
  body : RequestBody;
}.

(** A response: [response.ok] with its parsed JSON, or not, with its text. *)
Inductive Response (A : Type) : Type :=
| Ok (json : A)
| NotOk (text : string).
Arguments Ok {A} json.
Arguments NotOk {A} text.

Record TokenData : Type := {
  access_token : string;
  token_type : string;
  expires_in : Js.number;
}.

Record Credentials : Type := { client_id : string; client_secret : string }.

(** *** The browser *)

Record Location : Type := { pathname : string; search : string; hash : string }.

Record Browser : Type := mkBrowser {
  fetched : list FetchRequest;
  sessionStorage : gmap string string;
  localStorage : gmap string string;
  location : Location;
  (** the target of [window.location.href = ...], once assigned *)
  href : option string;
  (** React state of [Home] *)
  accessToken : option string;
  loading : bool;
  error : option string;
}.

Definition set_fetched v b := mkBrowser v (sessionStorage b) (localStorage b)
  (location b) (href b) (accessToken b) (loading b) (error b).
Definition set_sessionStorage v b := mkBrowser (fetched b) v (localStorage b)
  (location b) (href b) (accessToken b) (loading b) (error b).
Definition set_localStorage v b := mkBrowser (fetched b) (sessionStorage b) v
  (location b) (href b) (accessToken b) (loading b) (error b).
Definition set_location v b := mkBrowser (fetched b) (sessionStorage b) (localStorage b)
  v (href b) (accessToken b) (loading b) (error b).
Definition set_href v b := mkBrowser (fetched b) (sessionStorage b) (localStorage b)
  (location b) v (accessToken b) (loading b) (error b).
Definition setAccessToken v b := mkBrowser (fetched b) (sessionStorage b) (localStorage b)
  (location b) (href b) v (loading b) (error b).
Definition setLoading v b := mkBrowser (fetched b) (sessionStorage b) (localStorage b)
  (location b) (href b) (accessToken b) v (error b).
Definition setError v b := mkBrowser (fetched b) (sessionStorage b) (localStorage b)
  (location b) (href b) (accessToken b) (loading b) v.

(** [window.history.replaceState({}, document.title, window.location.pathname)]. *)
Definition replaceState_pathname (b : Browser) : Browser :=
  set_location {| pathname := pathname (location b); search := ""; hash := "" |} b.

(** [tokenStorage] and [clientStorage], in a browser ([window] is defined). *)
Module tokenStorage.
Definition set (token : string) (b : Browser) : Browser :=
  set_sessionStorage (<["mapbox_mcp_token" := token]> (sessionStorage b)) b.
Definition get (b : Browser) : option string :=
  sessionStorage b !! "mapbox_mcp_token".
Definition clear (b : Browser) : Browser :=
  set_sessionStorage (delete "mapbox_mcp_token" (sessionStorage b)) b.
End tokenStorage.

Module clientStorage.
Definition set (clientId clientSecret : string) (b : Browser) : Browser :=
  set_localStorage
    (<["mapbox_oauth_client_secret" := clientSecret]>
       (<["mapbox_oauth_client_id" := clientId]> (localStorage b))) b.
Definition get (b : Browser) : option Credentials :=
  let client_id := localStorage b !! "mapbox_oauth_client_id" in
  let client_secret := localStorage b !! "mapbox_oauth_client_secret" in
  if Js.truthy client_id && Js.truthy client_secret then
    match client_id, client_secret with
    | Some i, Some s => Some {| OAuth.client_id := i; OAuth.client_secret := s |}
    | _, _ => None
    end
  else None.
Definition clear (b : Browser) : Browser :=
  set_localStorage
    (delete "mapbox_oauth_client_secret"
       (delete "mapbox_oauth_client_id" (localStorage b))) b.
End clientStorage.

Section Flow.

Variable env : Env.

(** The authorization server: its answer to a request, or a network failure,
    given the requests made before. *)
Variable token_endpoint :
  list FetchRequest -> FetchRequest -> Js.error + Response TokenData.
Variable registration_endpoint :
  list FetchRequest -> FetchRequest -> Js.error + Response Credentials.

(** [registerOAuthClient(applicationName)]. *)
Definition registerOAuthClient (applicationName : string) (b : Browser)
  : (Js.error + Credentials) * Browser :=
  let request :=
    {| url := registrationEndpoint (OAUTH_CONFIG env) +:+ "?scope="
              +:+ Js.encodeURIComponent (scope (OAUTH_CONFIG env));
       method := "POST";
       content_type := "application/json";
       body := Json {| client_name := applicationName;
                       redirect_uris := [redirectUri (OAUTH_CONFIG env)];
                       grant_types := ["authorization_code"; "refresh_token"];
                       response_types := ["code"];
                       token_endpoint_auth_method := "client_secret_post" |} |} in
  let b' := set_fetched (fetched b ++ [request]) b in
  match registration_endpoint (fetched b) request with
  | inl e => (inl e, b')
  | inr (NotOk text) =>
      (inl (Js.Error ("Failed to register OAuth client: " +:+ text)), b')
  | inr (Ok credentials) => (inr credentials, b')
  end.

(** [exchangeCodeForToken(code)]. *)
Definition exchangeCodeForToken (code : string) (b : Browser)
  : (Js.error + TokenData) * Browser :=
  let credentials := clientStorage.get b in
  let clientId :=
    Js.or_default (option_map client_id credentials) (OAuth.clientId (OAUTH_CONFIG env)) in
  let clientSecret := option_map client_secret credentials in
  if String.eqb clientId "" then
    (inl (Js.Error "No client ID available for token exchange"), b)
  else
    let params :=
      ([("grant_type", "authorization_code");
        ("code", code);
        ("client_id", clientId);
        ("redirect_uri", redirectUri (OAUTH_CONFIG env))]
       ++ match clientSecret with
          | Some (String c s) => [("client_secret", String c s)]
          | _ => []
          end)%list in
    let request :=
      {| url := tokenEndpoint (OAUTH_CONFIG env);
         method := "POST";
         content_type := "application/x-www-form-urlencoded";
         body := Form (Js.URLSearchParams_toString params) |} in
    let b' := set_fetched (fetched b ++ [request]) b in
    match token_endpoint (fetched b) request with
    | inl e => (inl e, b')
    | inr (NotOk text) =>
        (inl (Js.Error ("Failed to exchange code for token: " +:+ text)), b')
    | inr (Ok data) => (inr data, b')
    end.

(** *** [Home] *)

(** The chain [.then(...).catch(...).finally(...)] on the exchange. *)
Definition exchange_settled (r : Js.error + TokenData) (b : Browser) : Browser :=
  let b :=
    match r with
    | inr tokenData =>
        replaceState_pathname
          (setAccessToken (Some (access_token tokenData))
             (tokenStorage.set (access_token tokenData) b))
    | inl err => setError (Some ("Token exchange failed: " +:+ Js.message err)) b
    end in
  setLoading false b.

(** The effect [Home] runs on mount.  Its synchronous part runs first; the
    exchange it may have started settles afterwards. *)
Definition useEffect (b : Browser) : Browser :=
  let storedToken := tokenStorage.get b in
  if Js.truthy storedToken then setAccessToken storedToken b
  else
    let '(pending, b) :=
      if negb (String.eqb (hash (location b)) "") then
        let params := Js.URLSearchParams (Js.substring1 (hash (location b))) in
        let code := Js.get "code" params in
        let state := Js.get "state" params in
        let token := Js.get "access_token" params in
        match token, code with
        | Some (String c t), _ =>
            (None, replaceState_pathname
                     (setAccessToken token (tokenStorage.set (String c t) b)))
        | _, Some (String c code') =>
            if Js.truthy state then
              let '(r, b) := exchangeCodeForToken (String c code') (setLoading true b) in
              (Some r, b)
            else (None, b)
        | _, _ => (None, b)
        end
      else (None, b) in
    let searchParams := Js.URLSearchParams (search (location b)) in
    let oauthError := Js.get "error" searchParams in
    let b :=
      match oauthError with
      | Some (String c e) =>
          replaceState_pathname (setError (Some ("OAuth error: " +:+ String c e)) b)
      | _ => b
      end in
    match pending with
    | Some r => exchange_settled r b
    | None => b
    end.

(** [handleLogin], with [nonce] the value [generateState()] returns. *)
Definition handleLogin (nonce : string) (b : Browser) : Browser :=
  let b := setError None (setLoading true b) in
  let credentials := clientStorage.get b in
  let '(registered, b) :=
    if negb (Js.defined credentials)
       && negb (Js.truthy (NEXT_PUBLIC_MAPBOX_OAUTH_CLIENT_ID env)) then
      let b := setError (Some "Registering OAuth client...") b in
      match registerOAuthClient "DC Tour Planner" b with
      | (inr c, b) => (inr (Some c), clientStorage.set (client_id c) (client_secret c) b)
      | (inl e, b) => (inl e, b)
      end
    else (inr credentials, b) in
  match registered with
  | inr credentials =>
      let state := nonce in
      let b := set_sessionStorage (<["oauth_state" := state]> (sessionStorage b)) b in
      let clientId :=
        Js.or_default
          (Js.or (option_map client_id credentials)
                 (NEXT_PUBLIC_MAPBOX_OAUTH_CLIENT_ID env)) "" in
      set_href (Some (getAuthorizationUrl env state (Some clientId))) b
  | inl err => setLoading false (setError (Some (Js.message err)) b)
  end.

End Flow.

(** The browser follows a redirect to [target] and the page loads there:
    the storages persist, [Home] mounts with its initial state. *)
Definition navigate (target : Location) (b : Browser) : Browser :=
  mkBrowser (fetched b) (sessionStorage b) (localStorage b) target None None false None.

(** *** The callback route ([GET /auth/callback]) *)

(** The URL a redirect points to, relative to the origin of [request.url]. *)
Definition Redirect : Type := Location.

(** The URL parser drops tabs and newlines and percent-encodes, in a query,
    controls, space, the double quote (code 34), [#], [<], [>], ['] and
    non-ASCII bytes; in a fragment, controls, space, the double quote, [<],
    [>], [`] and non-ASCII bytes. *)
Definition strip_tab_newline (s : string) : string :=
  string_of_list_ascii
    (filter (fun c => negb (Js.one_of (String "009" (String "010" (String "013" ""))) c))
            (list_ascii_of_string s)).

Definition url_query (s : string) : string :=
  Js.percent_encode
    (fun c => Js.in_range 33 126 c && negb (Js.one_of (String "034" "#<>'") c))
    (strip_tab_newline s).

Definition url_fragment (s : string) : string :=
  Js.percent_encode
    (fun c => Js.in_range 33 126 c && negb (Js.one_of (String "034" "<>`") c))
    (strip_tab_newline s).

Definition GET (searchParams : list (string * string)) : Redirect :=
  let code := Js.get "code" searchParams in
  let state := Js.get "state" searchParams in
  let error := Js.get "error" searchParams in
  match error with
  | Some (String c e) =>
      {| pathname := "/";
         search := "?" +:+ url_query ("error=" +:+ Js.encodeURIComponent (String c e));
         hash := "" |}
  | _ =>
      match code, state with
      | Some (String c1 code'), Some (String c2 state') =>
          {| pathname := "/";
             search := "";
             hash := "#" +:+ url_fragment
                       ("code=" +:+ String c1 code' +:+ "&state=" +:+ String c2 state') |}
      | _, _ =>
          {| pathname := "/"; search := "?error=missing_parameters"; hash := "" |}
      end
  end.

(** *** The rest of [lib/oauth.ts] and of [Home] *)

(** [isValidTokenFormat(token)]. *)
Definition isValidTokenFormat (token : string) : bool :=
  String.prefix "pk." token || String.prefix "sk." token.

(** All the state of [Home]: the browser with the three hooks modelled above,
    and the four remaining hooks. *)
Record Home : Type := mkHome {
  browser : Browser;
  query : string;
  aiResponse : option string;
  routeData : option AgentRouteData.t;
  searchResults : list SearchResult.t;
}.

(** [handleLogout]. *)
Definition handleLogout (h : Home) : Home :=
  mkHome (setError None (setAccessToken None (tokenStorage.clear (browser h))))
         "" None None [].

End OAuth.

(** ** The query route of the hosted application
    ([src/mastra-oauth/src/lib/oauth.ts], second part) *)

Module QueryRoute.

Inductive Body : Type :=
| ErrorBody (error : string)
| EnvelopeBody (response : Agent.AgentResponse.t).

Record Response : Type := { body : Body; status : Z }.

(** [POST(request)], given the [query] and [accessToken] members of the
    request body; [model] is what the language model makes of a query. *)
Definition POST (model : string -> Agent.Run) (query accessToken : option string)
  : M Response :=
  try_catch
    (match query with
     | Some (String c q) =>
         match accessToken with
         | Some (String c' t) =>
             let* response :=
               Agent.processNaturalLanguageQuery model (String c q) (String c' t) in
             ret {| body := EnvelopeBody response; status := 200 |}
         | _ => ret {| body := ErrorBody "Access token is required"; status := 401 |}
         end
     | _ => ret {| body := ErrorBody "Query is required"; status := 400 |}
     end)
    (fun error => ret {| body := ErrorBody (Js.message error); status := 500 |}).

End QueryRoute.

(** ** The category-search routes
    ([src/mastra-oauth/src/app/api/category-search/route.ts], first part, for
    the hosted application; [src/unnamed/part_005], first part, for the local
    one).  The [proximity] member of the body is handed on as it is. *)

Module CategorySearchRoute.

Inductive Body : Type :=
| ErrorBody (error : string)
| ResultsBody (results : list SearchResult.t).

Record Response : Type := { body : Body; status : Z }.

Module Hosted.
Definition POST (category : option string) (proximity : LngLat)
    (accessToken : option string) : M Response :=
  try_catch
    (match category with
     | Some (String c cat) =>
         match accessToken with
         | Some (String c' t) =>
             let* results :=
               McpHosted.categorySearch (String c cat) proximity (String c' t) in
             ret {| body := ResultsBody results; status := 200 |}
         | _ => ret {| body := ErrorBody "Access token is required"; status := 401 |}
         end
     | _ => ret {| body := ErrorBody "Category is required"; status := 400 |}
     end)
    (fun error => ret {| body := ErrorBody (Js.message error); status := 500 |}).
End Hosted.

Module Local.
Definition POST (category : option string) (proximity : LngLat) : M Response :=
  try_catch
    (match category with
     | Some (String c cat) =>
         let* results := McpLocal.categorySearch (String c cat) proximity in
         ret {| body := ResultsBody results; status := 200 |}
     | _ => ret {| body := ErrorBody "Category is required"; status := 400 |}
     end)
    (fun error => ret {| body := ErrorBody (Js.message error); status := 500 |}).
End Local.

End CategorySearchRoute.

(** ** The attraction selector
    ([src/mastra-oauth/src/components/AttractionSelector.tsx]) *)

Module AttractionSelector.

(** [handleToggle(id)]: the list handed to [onSelectionChange]. *)
Definition handleToggle (selectedIds : list string) (id : string) : list string :=
  if decide (id ∈ selectedIds)
  then filter (fun selectedId => selectedId ≠ id) selectedIds
  else selectedIds ++ [id].

End AttractionSelector.

(** ** Scenarios

    Concrete servers and inputs on which the definitions are evaluated. *)

Module Scenario.

Definition white_house : Position := ((-77.0365)%float, 38.8977%float).

Definition feature (name : string) : Feature.t :=
  {| Feature.properties :=
       {| name := Some name;
          full_address := Some (name +:+ ", Washington, DC");
          place_formatted := None |};
     Feature.geometry := {| coordinates := white_house |} |}.

Definition success (data : StructuredContent) : CallToolResult :=
  {| isError := false; content := []; structuredContent := Some data |}.

Definition two_point_route : Route.t :=
  {| Route.geometry := [white_house; ((-77.0090)%float, 38.8899%float)];
     Route.distance := 1600%float;
     Route.duration := 600%float |}.

(** A server that finds every address but ["Atlantis"], finds two places of
    every category, and routes every request in 1600 m and 600 s. *)
Definition dc_server (_ : list Event) (request : CallToolRequest.t)
  : Js.error + CallToolResult :=
  match CallToolRequest.arguments request with
  | SearchAndGeocodeArgs q _ _ =>
      if String.eqb q "Atlantis"
      then inr (success {| features := Some []; routes := None |})
      else inr (success {| features := Some [feature q]; routes := None |})
  | CategorySearchArgs category _ _ _ _ =>
      inr (success {| features := Some [feature (category +:+ " 1");
                                        feature (category +:+ " 2")];
                      routes := None |})
  | DirectionsArgs _ _ _ =>
      inr (success {| features := None; routes := Some [two_point_route] |})
  end.

Definition rate_limited : CallToolResult :=
  {| isError := true; content := [TextContent "rate limited"];
     structuredContent := None |}.

Definition failed_without_content : CallToolResult :=
  {| isError := true; content := []; structuredContent := None |}.

(** A server that answers every request with [result]. *)
Definition always (result : CallToolResult)
    (_ : list Event) (_ : CallToolRequest.t) : Js.error + CallToolResult :=
  inr result.

Definition start (server : list Event -> CallToolRequest.t -> Js.error + CallToolResult)
  : World :=
  mkWorld server [] false None None [].

(** An agent run that plans a route and then searches a category. *)
Definition route_then_search : string -> Agent.Run :=
  fun _ =>
    Agent.Invoke (Agent.plan_route ["White House"; "Capitol Hill"]) (fun _ =>
    Agent.Invoke (Agent.search_category "coffee" "White House") (fun _ =>
    Agent.Respond (Some "Here you go."))).

(** What that run captures on [dc_server]. *)
Definition coffee_results : list SearchResult.t :=
  [{| SearchResult.name := Some "coffee 1";
      SearchResult.coordinates := white_house;
      SearchResult.address := Some "coffee 1, Washington, DC" |};
   {| SearchResult.name := Some "coffee 2";
      SearchResult.coordinates := white_house;
      SearchResult.address := Some "coffee 2, Washington, DC" |}].

Definition planned_route : AgentRouteData.t :=
  {| AgentRouteData.locations :=
       [{| Geocoded.name := Some "White House"; Geocoded.coordinates := white_house |};
        {| Geocoded.name := Some "Capitol Hill"; Geocoded.coordinates := white_house |}];
     AgentRouteData.route := Route.geometry two_point_route;
     AgentRouteData.distance := "0.99";
     AgentRouteData.duration := 10%float |}.

(** An agent run that only looks a place up. *)
Definition lookup_only : string -> Agent.Run :=
  fun query =>
    Agent.Invoke (Agent.search_location query) (fun _ => Agent.Respond None).

(** The OAuth application configured with a client id, an authorization
    server that grants every exchange, and a browser that has just opened the
    application. *)
Definition env : OAuth.Env :=
  {| OAuth.NEXT_PUBLIC_MAPBOX_OAUTH_CLIENT_ID := Some "demo-client";
     OAuth.NEXT_PUBLIC_OAUTH_REDIRECT_URI := None |}.

Definition granting_endpoint (_ : list OAuth.FetchRequest) (_ : OAuth.FetchRequest)
  : Js.error + OAuth.Response OAuth.TokenData :=
  inr (OAuth.Ok {| OAuth.access_token := "pk.granted";
                   OAuth.token_type := "bearer";
                   OAuth.expires_in := 3600%float |}).

Definition closed_registration (_ : list OAuth.FetchRequest) (_ : OAuth.FetchRequest)
  : Js.error + OAuth.Response OAuth.Credentials :=
  inr (OAuth.NotOk "registration is closed").

Definition opened : OAuth.Browser :=
  OAuth.mkBrowser [] ∅ ∅
    {| OAuth.pathname := "/"; OAuth.search := ""; OAuth.hash := "" |}
    None None false None.

(** A deployment without configured client id, and an authorization server
    that registers every client. *)
Definition unconfigured : OAuth.Env :=
  {| OAuth.NEXT_PUBLIC_MAPBOX_OAUTH_CLIENT_ID := None;
     OAuth.NEXT_PUBLIC_OAUTH_REDIRECT_URI := None |}.

Definition open_registration (_ : list OAuth.FetchRequest) (_ : OAuth.FetchRequest)
  : Js.error + OAuth.Response OAuth.Credentials :=
  inr (OAuth.Ok {| OAuth.client_id := "registered-client";
                   OAuth.client_secret := "registered-secret" |}).



End Scenario.

(** ** Vocabulary of the properties *)

(** What an operation makes of the server's response: a failed round trip is
    passed on, a result goes through the operation's own reading of it. *)
Definition through {A} (read : CallToolResult -> Js.error + A)
    (response : Js.error + CallToolResult) : Js.error + A :=
  match response with
  | inl e => inl e
  | inr result => read result
  end.


(** The exchange [e] is a geocoding call that failed: the round trip failed,
    the tool reported an error, or no feature came back. *)
Definition geocode_failed (e : Event) : bool :=
  match e with
  | Requested request response =>
      match CallToolRequest.arguments request with
      | SearchAndGeocodeArgs q _ _ =>
          match through (McpResult.geocoded q) response with
          | inl _ => true
          | inr _ => false
          end
      | _ => false
      end
  | Connected _ => false
  end.

(** The exchange [e] is a call of the directions tool. *)
Definition directions_call (e : Event) : bool :=
  match e with
  | Requested request _ =>
      match CallToolRequest.arguments request with
      | DirectionsArgs _ _ _ => true
      | _ => false
      end
  | Connected _ => false
  end.

(** The state of the local variant after one request. *)
Definition local_after (request : CallToolRequest.t) (w : World) : World :=
  mkWorld (server w)
    (trace w ++ McpLocal.connection w
       ++ [Requested request (McpLocal.answer request w)])
    true (capturedSearchResults w) (capturedRouteData w) (captures w).

(** The browser [b] with [v] stored as the OAuth state. *)
Definition with_oauth_state (v : string) (b : OAuth.Browser) : OAuth.Browser :=
  OAuth.set_sessionStorage (<["oauth_state" := v]> (OAuth.sessionStorage b)) b.

(** The state [w] after the assignment recorded as [c]. *)
Definition captured (c : Capture) (w : World) : World :=
  match c with
  | CapturedSearch results =>
      mkWorld (server w) (trace w) (mcpClient w)
        (Some results) (capturedRouteData w) (captures w ++ [c])
  | CapturedRoute data =>
      mkWorld (server w) (trace w) (mcpClient w)
        (capturedSearchResults w) (Some data) (captures w ++ [c])
  end.

(** The payload of the last search capture, and of the last route capture,
    in a history of captures. *)
Fixpoint last_search (log : list Capture) : option (list SearchResult.t) :=
  match log with
  | [] => None
  | c :: rest =>
      match last_search rest, c with
      | Some results, _ => Some results
      | None, CapturedSearch results => Some results
      | None, CapturedRoute _ => None
      end
  end.

Fixpoint last_route (log : list Capture) : option AgentRouteData.t :=
  match log with
  | [] => None
  | c :: rest =>
      match last_route rest, c with
      | Some data, _ => Some data
      | None, CapturedRoute data => Some data
      | None, CapturedSearch _ => None
      end
  end.

(** The two capture variables hold what the captures made since [base] say. *)
Definition consistent (base : list Capture) (w : World) : Prop :=
  exists log,
    captures w = base ++ log
    /\ capturedSearchResults w = last_search log
    /\ capturedRouteData w = last_route log.

(** The state with both capture variables cleared. *)
Definition cleared (w : World) : World :=
  mkWorld (server w) (trace w) (mcpClient w) None None (captures w).

(** A run in which the agent calls no tool that captures: at most
    [search-location]. *)
Inductive no_capturing_tool : Agent.Run -> Prop :=
| quiet_respond (answer : option string) : no_capturing_tool (Agent.Respond answer)
| quiet_fail (e : Js.error) : no_capturing_tool (Agent.Fail e)
| quiet_invoke (query : string) (next : Agent.Outcome -> Agent.Run) :
    (forall outcome, no_capturing_tool (next outcome)) ->
    no_capturing_tool (Agent.Invoke (Agent.search_location query) next).

(** A run in which the agent always ends with an answer. *)
Inductive answers : Agent.Run -> Prop :=
| answers_respond (answer : option string) : answers (Agent.Respond answer)
| answers_invoke (call : Agent.ToolCall) (next : Agent.Outcome -> Agent.Run) :
    (forall outcome, answers (next outcome)) ->
    answers (Agent.Invoke call next).

(** The route list of a result is missing or empty. *)
Definition no_routes (result : CallToolResult) : Prop :=
  match structuredContent result with
  | None => True
  | Some data => routes data = None \/ routes data = Some []
  end.

(** The events [evs] are requests of the hosted variant made as it makes
    them: each over a connection of its own, opened just before it with the
    bearer token [accessToken]. *)
Fixpoint own_connections (accessToken : string) (evs : list Event) : bool :=
  match evs with
  | [] => true
  | Connected (StreamableHTTP url authorization) :: Requested _ _ :: rest =>
      String.eqb url "https://mcp.mapbox.com/mcp"
      && String.eqb authorization ("Bearer " +:+ accessToken)
      && own_connections accessToken rest
  | _ => false
  end.

(** The number of connections opened in [evs]. *)
Fixpoint connections (evs : list Event) : nat :=
  match evs with
  | [] => 0
  | Connected _ :: rest => S (connections rest)
  | Requested _ _ :: rest => connections rest
  end.

(** A computation of the hosted application keeps to that discipline. *)
Definition keeps_own_connections (accessToken : string) {A} (m : M A) : Prop :=
  forall w, exists evs,
    trace (snd (m w)) = trace w ++ evs
    /\ own_connections accessToken evs = true.

(** Some request is made in [evs]. *)
Definition requests (evs : list Event) : bool :=
  existsb (fun e => match e with Requested _ _ => true | Connected _ => false end) evs.

(** A computation of the local application keeps one client: it opens a
    connection only when none is open, and none is open only as long as no
    request was made. *)
Definition keeps_one_client {A} (m : M A) : Prop :=
  forall w, exists evs,
    trace (snd (m w)) = trace w ++ evs
    /\ ((if mcpClient w then 1 else 0) + connections evs
        = (if mcpClient (snd (m w)) then 1 else 0))%nat
    /\ (requests evs = true -> mcpClient (snd (m w)) = true).

(** Query strings: what [urlencoded_serialize] makes of one byte, a string
    without the byte [sep], and one [name=value] piece of a serialized
    query. *)
Definition serialized_byte (c : ascii) : string :=
  if Ascii.eqb c " " then "+"
  else if Js.is_alnum c || Js.one_of "*-._" c then String c ""
  else Js.percent_byte c.

Fixpoint lacks (sep : ascii) (s : string) : bool :=
  match s with
  | "" => true
  | String c s' => negb (Ascii.eqb c sep) && lacks sep s'
  end.

Definition piece (entry : string * string) : string :=
  Js.urlencoded_serialize entry.1 +:+ String "=" (Js.urlencoded_serialize entry.2).

(** Credentials that [clientStorage.get] will return once stored: neither
    part is empty. *)
Definition complete (credentials : OAuth.Credentials) : bool :=
  negb (String.eqb (OAuth.client_id credentials) "")
  && negb (String.eqb (OAuth.client_secret credentials) "").

(** A string written byte by byte with [enc], and a string whose bytes all
    satisfy [ok]. *)
Fixpoint encode_bytes (enc : ascii -> string) (s : string) : string :=
  match s with
  | "" => ""
  | String c s' => enc c +:+ encode_bytes enc s'
  end.

Fixpoint all_bytes (ok : ascii -> bool) (s : string) : bool :=
  match s with
  | "" => true
  | String c s' => ok c && all_bytes ok s'
  end.

(** The bytes that survive being written into a fragment without encoding and
    read back as a query string: all but [&], [+], [%], tab, line feed and
    carriage return. *)
Definition plain_byte (c : ascii) : bool :=
  negb (Js.one_of (String "009" (String "010" (String "013" "&+%"))) c).

(** * Properties *)

(** ** One tool call *)

Lemma after_after (evs1 evs2 : list Event) (w : World) :
  after evs2 (after evs1 w) = after (evs1 ++ evs2) w.
Proof. unfold after; simpl. by rewrite app_assoc. Qed.

Lemma after_nil (w : World) : after [] w = w.
Proof. destruct w; unfold after; simpl. by rewrite app_nil_r. Qed.

Lemma bind_assoc {A B C} (m : M A) (k : A -> M B) (h : B -> M C) (w : World) :
  bind (bind m k) h w = bind m (fun a => bind (k a) h) w.
Proof. unfold bind. by destruct (m w) as [[e|a] w']. Qed.

Lemma client_request_run (request : CallToolRequest.t) (w : World) :
  client_request request w =
  (server w (trace w) request,
   after [Requested request (server w (trace w) request)] w).
Proof.
  unfold client_request, bind, log, lift, after; simpl.
  by destruct (server w (trace w) request).
Qed.

Lemma callMCPTool_run (toolName : string) (toolArgs : ToolArgs)
    (accessToken : string) (w : World) :
  McpHosted.callMCPTool toolName toolArgs accessToken w =
  (McpHosted.answer accessToken (McpResult.tools_call toolName toolArgs) w,
   after [McpHosted.connection accessToken;
          Requested (McpResult.tools_call toolName toolArgs)
            (McpHosted.answer accessToken (McpResult.tools_call toolName toolArgs) w)]
     w).
Proof.
  unfold McpHosted.callMCPTool, McpHosted.getMCPClient, bind, log.
  rewrite client_request_run; unfold after; simpl.
  fold (McpHosted.answer accessToken (McpResult.tools_call toolName toolArgs) w).
  by rewrite <- app_assoc.
Qed.

Lemma hosted_run {A} (read : CallToolResult -> Js.error + A)
    (toolName : string) (toolArgs : ToolArgs) (accessToken : string) (w : World) :
  bind (McpHosted.callMCPTool toolName toolArgs accessToken)
    (fun result => lift (read result)) w =
  (through read (McpHosted.answer accessToken (McpResult.tools_call toolName toolArgs) w),
   after [McpHosted.connection accessToken;
          Requested (McpResult.tools_call toolName toolArgs)
            (McpHosted.answer accessToken (McpResult.tools_call toolName toolArgs) w)]
     w).
Proof.
  unfold bind. rewrite callMCPTool_run.
  by destruct (McpHosted.answer accessToken (McpResult.tools_call toolName toolArgs) w).
Qed.

Lemma local_request_run (request : CallToolRequest.t) (w : World) :
  bind McpLocal.getMCPClient (fun _ => client_request request) w =
  (McpLocal.answer request w,
   mkWorld (server w)
     (trace w ++ McpLocal.connection w ++ [Requested request (McpLocal.answer request w)])
     true (capturedSearchResults w) (capturedRouteData w) (captures w)).
Proof.
  unfold bind, McpLocal.getMCPClient, McpLocal.answer, McpLocal.connection.
  destruct w as [srv tr [] cs cr cap]; simpl;
    rewrite client_request_run; unfold after; simpl.
  - by rewrite app_nil_r.
  - by rewrite <- app_assoc.
Qed.

Lemma hosted_geocodeLocation_run (address accessToken : string) (w : World) :
  McpHosted.geocodeLocation address accessToken w =
  (through (McpResult.geocoded address)
     (McpHosted.answer accessToken (McpResult.geocode_request address) w),
   after [McpHosted.connection accessToken;
          Requested (McpResult.geocode_request address)
            (McpHosted.answer accessToken (McpResult.geocode_request address) w)] w).
Proof. apply hosted_run. Qed.

Lemma hosted_categorySearch_run (category : string) (proximity : LngLat)
    (accessToken : string) (w : World) :
  McpHosted.categorySearch category proximity accessToken w =
  (through McpResult.searched
     (McpHosted.answer accessToken (McpResult.category_request category proximity) w),
   after [McpHosted.connection accessToken;
          Requested (McpResult.category_request category proximity)
            (McpHosted.answer accessToken
               (McpResult.category_request category proximity) w)] w).
Proof. apply hosted_run. Qed.

Lemma hosted_calculateRoute_run (coordinates : list Position)
    (accessToken : string) (w : World) :
  McpHosted.calculateRoute coordinates accessToken w =
  (through McpResult.routed
     (McpHosted.answer accessToken (McpResult.directions_request coordinates) w),
   after [McpHosted.connection accessToken;
          Requested (McpResult.directions_request coordinates)
            (McpHosted.answer accessToken
               (McpResult.directions_request coordinates) w)] w).
Proof. apply hosted_run. Qed.

(** The state of the local variant after a request: the client is connected. *)
Lemma local_run {A} (read : CallToolResult -> Js.error + A)
    (request : CallToolRequest.t) (w : World) :
  bind McpLocal.getMCPClient
    (fun _ => bind (client_request request) (fun result => lift (read result))) w =
  (through read (McpLocal.answer request w),
   mkWorld (server w)
     (trace w ++ McpLocal.connection w ++ [Requested request (McpLocal.answer request w)])
     true (capturedSearchResults w) (capturedRouteData w) (captures w)).
Proof.
  rewrite <- (bind_assoc McpLocal.getMCPClient).
  unfold bind at 1. rewrite local_request_run.
  by destruct (McpLocal.answer request w).
Qed.


(** ** The error arm of a tool result (claim C5) *)


(** A tool error whose first content entry is not text is thrown as the
    generic failure. *)
Lemma check_for_errors_not_text (result : CallToolResult) (first : ContentBlock)
    (rest : list ContentBlock) :
  isError result = true ->
  content result = first :: rest ->
  (forall text, first <> TextContent text) ->
  McpResult.check_for_errors result = inl (Js.Error "MCP tool returned an error").
Proof.
  intros He Hc Hn. unfold McpResult.check_for_errors. rewrite He, Hc.
  destruct first; try done. by destruct (Hn text).
Qed.

(** Every operation passes the error of [check_for_errors] on. *)
Lemma operations_throw_check_for_errors (result : CallToolResult) (e : Js.error) :
  McpResult.check_for_errors result = inl e ->
  (forall address, McpResult.geocoded address result = inl e)
  /\ McpResult.searched result = inl e
  /\ McpResult.routed result = inl e.
Proof.
  intros H. unfold McpResult.geocoded, McpResult.searched, McpResult.routed.
  by rewrite H.
Qed.

(** C5, at the failing input [{isError: true, content: []}]: the first
    content entry is missing, and what is thrown is not the generic failure
    of the sibling branch but the engine's [TypeError] for reading [type] of
    [undefined].  It escapes from each operation of both variants.  (With a
    first entry, the error is as claimed: "rate limited" is thrown as
    "MCP tool error: rate limited".) *)
Theorem error_result_without_content :
  let oops :=
    Js.TypeError "Cannot read properties of undefined (reading 'type')" in
  let w := Scenario.start (Scenario.always Scenario.failed_without_content) in
  McpResult.check_for_errors Scenario.failed_without_content = inl oops
  /\ fst (McpHosted.geocodeLocation "White House" "token" w) = inl oops
  /\ fst (McpHosted.categorySearch "coffee"
            {| longitude := fst Scenario.white_house;
               latitude := snd Scenario.white_house |} "token" w) = inl oops
  /\ fst (McpHosted.calculateRoute [Scenario.white_house; Scenario.white_house]
            "token" w) = inl oops
  /\ fst (McpLocal.geocodeLocation "White House" w) = inl oops
  /\ fst (McpLocal.calculateRoute [Scenario.white_house; Scenario.white_house] w)
     = inl oops
  /\ oops <> Js.Error "MCP tool returned an error"
  /\ fst (McpHosted.geocodeLocation "White House" "token"
            (Scenario.start (Scenario.always Scenario.rate_limited)))
     = inl (Js.Error "MCP tool error: rate limited").
Proof.
  cbv zeta.
  repeat match goal with
         | |- _ <> _ /\ _ => split; [discriminate|]
         | |- _ /\ _ => split; [vm_compute; reflexivity|]
         end.
  vm_compute; reflexivity.
Qed.

(** ** Geocoding and category search (claims C6 and C7) *)








(** ** The plan-route handler (claims C2 and C8) *)

Lemma settle_run {A} (m : M A) (w : World) :
  settle m w = (inr (fst (m w)), snd (m w)).
Proof. unfold settle. by destruct (m w). Qed.

Lemma local_geocodeLocation_run (address : string) (w : World) :
  McpLocal.geocodeLocation address w =
  (through (McpResult.geocoded address)
     (McpLocal.answer (McpResult.geocode_request address) w),
   mkWorld (server w)
     (trace w ++ McpLocal.connection w
        ++ [Requested (McpResult.geocode_request address)
              (McpLocal.answer (McpResult.geocode_request address) w)])
     true (capturedSearchResults w) (capturedRouteData w) (captures w)).
Proof. unfold McpLocal.geocodeLocation. apply local_run. Qed.

Lemma local_calculateRoute_run (coordinates : list Position) (w : World) :
  McpLocal.calculateRoute coordinates w =
  (through McpResult.routed
     (McpLocal.answer (McpResult.directions_request coordinates) w),
   mkWorld (server w)
     (trace w ++ McpLocal.connection w
        ++ [Requested (McpResult.directions_request coordinates)
              (McpLocal.answer (McpResult.directions_request coordinates) w)])
     true (capturedSearchResults w) (capturedRouteData w) (captures w)).
Proof. unfold McpLocal.calculateRoute. apply local_run. Qed.

Lemma connection_quiet (w : World) :
  existsb geocode_failed (McpLocal.connection w) = false
  /\ existsb directions_call (McpLocal.connection w) = false.
Proof. unfold McpLocal.connection. by destruct (mcpClient w). Qed.

Lemma geocode_failed_request (address : string) (response : Js.error + CallToolResult) :
  geocode_failed (Requested (McpResult.geocode_request address) response) =
  match through (McpResult.geocoded address) response with
  | inl _ => true
  | inr _ => false
  end.
Proof. reflexivity. Qed.

Lemma geocode_attractions_cons (attraction : PlanRoute.Attraction)
    (rest : list PlanRoute.Attraction) (locations : list PlanRoute.Location.t)
    (w : World) :
  PlanRoute.geocode_attractions (attraction :: rest) locations w =
  let request := McpResult.geocode_request (PlanRoute.address attraction) in
  match through (McpResult.geocoded (PlanRoute.address attraction))
          (McpLocal.answer request w) with
  | inl _ =>
      (inr (inl {| PlanRoute.body :=
                     PlanRoute.ErrorBody
                       ("Failed to geocode " +:+ PlanRoute.name attraction);
                   PlanRoute.status := 500 |}),
       local_after request w)
  | inr location =>
      PlanRoute.geocode_attractions rest
        (locations ++ [{| PlanRoute.Location.name := PlanRoute.name attraction;
                          PlanRoute.Location.coordinates :=
                            Geocoded.coordinates location |}])
        (local_after request w)
  end.
Proof.
  simpl. unfold bind. rewrite settle_run, local_geocodeLocation_run; simpl.
  fold (local_after (McpResult.geocode_request (PlanRoute.address attraction)) w).
  by destruct (through _ _).
Qed.

(** The loop only calls the geocode tool; it ends with the [500] response at
    the first attraction whose geocoding fails, and with the locations only if
    no geocoding failed. *)
Lemma geocode_attractions_run (attractions : list PlanRoute.Attraction) :
  forall (locations : list PlanRoute.Location.t) (w : World),
  exists evs,
    trace (snd (PlanRoute.geocode_attractions attractions locations w)) = trace w ++ evs
    /\ existsb directions_call evs = false
    /\ match fst (PlanRoute.geocode_attractions attractions locations w) with
       | inl _ => False
       | inr (inl response) =>
           exists attraction,
             In attraction attractions
             /\ response =
                {| PlanRoute.body :=
                     PlanRoute.ErrorBody
                       ("Failed to geocode " +:+ PlanRoute.name attraction);
                   PlanRoute.status := 500 |}
       | inr (inr _) => existsb geocode_failed evs = false
       end.
Proof.
  induction attractions as [|attraction rest IH]; intros locations w.
  - exists []. simpl. by rewrite app_nil_r.
  - rewrite geocode_attractions_cons; cbv zeta.
    destruct (connection_quiet w) as [Hg Hd].
    destruct (through _ _) as [e|location] eqn:Hr.
    + eexists. simpl. split; [reflexivity|]. split.
      * rewrite existsb_app, Hd. reflexivity.
      * exists attraction. split; [by left|reflexivity].
    + match goal with
      | |- context [PlanRoute.geocode_attractions rest ?l ?w1] =>
          destruct (IH l w1) as (evs & Ht & Hnd & Hres)
      end.
      simpl in Ht. rewrite <- app_assoc in Ht.
      eexists. split; [exact Ht|]. split.
      * rewrite !existsb_app, Hd, Hnd. reflexivity.
      * destruct (fst (PlanRoute.geocode_attractions rest _ _)) as [e|[response|locs]].
        -- done.
        -- destruct Hres as (a & Hin & ->). exists a. split; [by right|done].
        -- rewrite !existsb_app, Hg, Hres. cbn [existsb].
           by rewrite geocode_failed_request, Hr.
Qed.

Lemma POST_run (attractions : list PlanRoute.Attraction) (w : World) :
  (2 <= length attractions)%nat ->
  PlanRoute.POST (Some attractions) w =
  match PlanRoute.geocode_attractions attractions [] w with
  | (inl e, w1) =>
      (inr {| PlanRoute.body := PlanRoute.ErrorBody (Js.message e);
              PlanRoute.status := 500 |}, w1)
  | (inr (inl response), w1) => (inr response, w1)
  | (inr (inr locations), w1) =>
      let request :=
        McpResult.directions_request (map PlanRoute.Location.coordinates locations) in
      (inr match through McpResult.routed (McpLocal.answer request w1) with
           | inl e => {| PlanRoute.body := PlanRoute.ErrorBody (Js.message e);
                         PlanRoute.status := 500 |}
           | inr r => {| PlanRoute.body :=
                           PlanRoute.RouteBody (PlanRoute.route_data locations r);
                         PlanRoute.status := 200 |}
           end,
       local_after request w1)
  end.
Proof.
  intros Hlen. unfold PlanRoute.POST, try_catch.
  destruct (length attractions <? 2)%nat eqn:Hlt.
  { apply Nat.ltb_lt in Hlt. lia. }
  unfold bind.
  destruct (PlanRoute.geocode_attractions attractions [] w) as [[e|[response|locations]] w1];
    try reflexivity.
  cbv zeta. rewrite local_calculateRoute_run.
  fold (local_after
          (McpResult.directions_request (map PlanRoute.Location.coordinates locations)) w1).
  by destruct (through _ _).
Qed.

Lemma POST_few_attractions (attractions : option (list PlanRoute.Attraction))
    (w : World) :
  match attractions with
  | None => True
  | Some l => (length l < 2)%nat
  end ->
  PlanRoute.POST attractions w =
  (inr {| PlanRoute.body := PlanRoute.ErrorBody "At least 2 attractions are required";
          PlanRoute.status := 400 |}, w).
Proof.
  intros H. unfold PlanRoute.POST, try_catch.
  destruct attractions as [l|]; [|reflexivity].
  apply Nat.ltb_lt in H. by rewrite H.
Qed.

(** C2, as the code has it: a plan-route request with no attraction list or
    with fewer than 2 attractions is answered [400], "At least 2 attractions
    are required", and the state is left as it was: nothing was sent to the
    server, and no route data is produced.  [calculateRoute] itself (of
    either variant) sends its request to the directions tool whatever the
    number of coordinates. *)
Theorem POST_requires_two_attractions :
  (forall (attractions : option (list PlanRoute.Attraction)) (w : World),
      match attractions with
      | None => True
      | Some l => (length l < 2)%nat
      end ->
      PlanRoute.POST attractions w =
      (inr {| PlanRoute.body :=
                PlanRoute.ErrorBody "At least 2 attractions are required";
              PlanRoute.status := 400 |}, w))
  /\ (forall (coordinates : list Position) (w : World),
        trace (snd (McpLocal.calculateRoute coordinates w)) =
        trace w ++ McpLocal.connection w
                ++ [Requested (McpResult.directions_request coordinates)
                      (McpLocal.answer (McpResult.directions_request coordinates) w)])
  /\ (forall (coordinates : list Position) (accessToken : string) (w : World),
        trace (snd (McpHosted.calculateRoute coordinates accessToken w)) =
        trace w ++ [McpHosted.connection accessToken;
                    Requested (McpResult.directions_request coordinates)
                      (McpHosted.answer accessToken
                         (McpResult.directions_request coordinates) w)]).
Proof.
  split; [|split].
  - intros attractions w Hfew. unfold PlanRoute.POST, try_catch.
    destruct attractions as [l|].
    + destruct (length l <? 2)%nat eqn:Hlt; [reflexivity|].
      apply Nat.ltb_ge in Hlt. lia.
    + reflexivity.
  - intros coordinates w. by rewrite local_calculateRoute_run.
  - intros coordinates accessToken w. by rewrite hosted_calculateRoute_run.
Qed.

Lemma POST_requires_two_attractions_witness :
  PlanRoute.POST
    (Some [{| PlanRoute.id := "1"; PlanRoute.name := "White House";
              PlanRoute.address := "1600 Pennsylvania Ave NW" |}])
    (Scenario.start Scenario.dc_server) =
  (inr {| PlanRoute.body := PlanRoute.ErrorBody "At least 2 attractions are required";
          PlanRoute.status := 400 |}, Scenario.start Scenario.dc_server).
Proof.
  apply (proj1 POST_requires_two_attractions
           (Some [{| PlanRoute.id := "1"; PlanRoute.name := "White House";
                     PlanRoute.address := "1600 Pennsylvania Ave NW" |}])).
  simpl. lia.
Defined.

(** C2, as stated, fails: [calculateRoute] does not look at the number of
    coordinates.  Given a single coordinate it calls the directions tool and
    returns the route the tool answers with. *)
Lemma calculateRoute_accepts_one_coordinate :
  let run :=
    McpLocal.calculateRoute [Scenario.white_house] (Scenario.start Scenario.dc_server) in
  (length [Scenario.white_house] < 2)%nat
  /\ fst run = inr Scenario.two_point_route
  /\ trace (snd run) =
     [Connected (Stdio "npx" ["-y"; "@mapbox/mcp-server"]);
      Requested
        {| CallToolRequest.method := "tools/call";
           CallToolRequest.name := "directions_tool";
           CallToolRequest.arguments :=
             DirectionsArgs
               [{| longitude := fst Scenario.white_house;
                   latitude := snd Scenario.white_house |}]
               "walking" "geojson" |}
        (inr (Scenario.success
                {| features := None; routes := Some [Scenario.two_point_route] |}))].
Proof. cbv zeta. split; [simpl; lia|]. split; reflexivity. Qed.

Lemma POST_all_or_nothing (attractions : option (list PlanRoute.Attraction)) (w : World) :
  exists evs,
    trace (snd (PlanRoute.POST attractions w)) = trace w ++ evs
    /\ (existsb geocode_failed evs = true ->
        existsb directions_call evs = false
        /\ exists l attraction,
             attractions = Some l
             /\ In attraction l
             /\ fst (PlanRoute.POST attractions w) =
                inr {| PlanRoute.body :=
                         PlanRoute.ErrorBody
                           ("Failed to geocode " +:+ PlanRoute.name attraction);
                       PlanRoute.status := 500 |}).
Proof.
  assert (Hfew : match attractions with
                 | None => True
                 | Some l => (length l < 2)%nat
                 end ->
                 exists evs,
                   trace (snd (PlanRoute.POST attractions w)) = trace w ++ evs
                   /\ (existsb geocode_failed evs = true ->
                       existsb directions_call evs = false
                       /\ exists l attraction,
                            attractions = Some l
                            /\ In attraction l
                            /\ fst (PlanRoute.POST attractions w) =
                               inr {| PlanRoute.body :=
                                        PlanRoute.ErrorBody
                                          ("Failed to geocode "
                                           +:+ PlanRoute.name attraction);
                                      PlanRoute.status := 500 |})).
  { intros Ha. rewrite (POST_few_attractions attractions w Ha). exists []. simpl.
    split; [by rewrite app_nil_r|discriminate]. }
  destruct attractions as [l|]; [|by apply Hfew].
  destruct (le_lt_dec 2 (length l)) as [Hlen|Hlen]; [|by apply Hfew].
  clear Hfew. rewrite (POST_run l w Hlen).
  destruct (geocode_attractions_run l [] w) as (evs & Ht & Hnd & Hres).
  destruct (PlanRoute.geocode_attractions l [] w) as [[e|[response|locations]] w1];
    simpl in Ht, Hres.
  - done.
  - destruct Hres as (a & Hin & ->). exists evs. simpl. split; [done|].
    intros _. split; [done|]. by exists l, a.
  - cbv zeta. eexists. simpl. rewrite Ht, <- app_assoc. split; [reflexivity|].
    destruct (connection_quiet w1) as [Hg Hd].
    rewrite !existsb_app, Hres, Hg. simpl. discriminate.
Qed.

(** ** The tools of the agent *)

Lemma settle_all_cons {A} (call : M A) (calls : list (M A)) (w : World) :
  Agent.settle_all (call :: calls) w =
  match Agent.settle_all calls (snd (call w)) with
  | (inr rs, w') => (inr (fst (call w) :: rs), w')
  | (inl e, w') => (inl e, w')
  end.
Proof.
  cbn [Agent.settle_all]. unfold bind at 1. rewrite settle_run.
  unfold bind, ret. by destruct (Agent.settle_all calls _) as [[e|rs] w'].
Qed.

(** [Promise.all] over the geocoding calls: only the geocode tool is called,
    and the promise is rejected exactly when one of the calls failed. *)
Lemma settle_all_geocode (accessToken : string) (locations : list string) :
  forall w : World,
  exists evs rs,
    Agent.settle_all
      (map (fun loc => McpHosted.geocodeLocation loc accessToken) locations) w
    = (inr rs, after evs w)
    /\ existsb directions_call evs = false
    /\ existsb geocode_failed evs =
       match Agent.all_fulfilled rs with inl _ => true | inr _ => false end.
Proof.
  induction locations as [|loc rest IH]; intros w.
  - exists [], []. simpl. unfold ret. by rewrite after_nil.
  - cbn [map]. rewrite settle_all_cons, hosted_geocodeLocation_run. cbn [fst snd].
    match goal with
    | |- context [Agent.settle_all _ ?w1] =>
        destruct (IH w1) as (evs & rs & Hrun & Hnd & Hfail)
    end.
    rewrite Hrun, after_after.
    eexists _, _. split; [reflexivity|]. split.
    + simpl. exact Hnd.
    + cbn [existsb app]. rewrite Hfail, geocode_failed_request. cbn [Agent.all_fulfilled].
      destruct (through _ _) as [e|g]; [done|].
      simpl. by destruct (Agent.all_fulfilled rs).
Qed.

Lemma planRouteTool_eq (accessToken : string) (locations : list string) (w : World)
    (evs : list Event) (rs : list (Js.error + Geocoded.t)) :
  Agent.settle_all
    (map (fun loc => McpHosted.geocodeLocation loc accessToken) locations) w
  = (inr rs, after evs w) ->
  Agent.planRouteTool accessToken locations w =
  match Agent.all_fulfilled rs with
  | inl e => (inl e, after evs w)
  | inr geocoded =>
      let request :=
        McpResult.directions_request (map Geocoded.coordinates geocoded) in
      let response := McpHosted.answer accessToken request (after evs w) in
      let evs' :=
        evs ++ [McpHosted.connection accessToken; Requested request response] in
      match through McpResult.routed response with
      | inl e => (inl e, after evs' w)
      | inr r =>
          (inr (Agent.RouteOutput
                  (AgentRouteData.distance (Agent.route_data geocoded r))
                  (AgentRouteData.duration (Agent.route_data geocoded r))),
           captured (CapturedRoute (Agent.route_data geocoded r)) (after evs' w))
      end
  end.
Proof.
  intros Hrun. unfold Agent.planRouteTool, Agent.Promise_all.
  rewrite bind_assoc. unfold bind at 1. rewrite Hrun.
  unfold bind at 1, lift at 1.
  destruct (Agent.all_fulfilled rs) as [e|geocoded]; [reflexivity|].
  cbv zeta. unfold bind at 1. rewrite hosted_calculateRoute_run, after_after.
  by destruct (through _ _).
Qed.

(** What [plan-route] does to the state: it throws, having captured nothing,
    or it returns, having captured the route data once; and it returns only if
    no geocoding failed. *)
Lemma planRouteTool_run (accessToken : string) (locations : list string) (w : World) :
  exists evs,
    (existsb geocode_failed evs = true -> existsb directions_call evs = false)
    /\ ((exists e,
           Agent.planRouteTool accessToken locations w = (inl e, after evs w))
        \/ (exists data,
              Agent.planRouteTool accessToken locations w =
              (inr (Agent.RouteOutput (AgentRouteData.distance data)
                                      (AgentRouteData.duration data)),
               captured (CapturedRoute data) (after evs w))
              /\ existsb geocode_failed evs = false)).
Proof.
  destruct (settle_all_geocode accessToken locations w) as (evs & rs & Hrun & Hnd & Hfail).
  rewrite (planRouteTool_eq _ _ _ _ _ Hrun).
  destruct (Agent.all_fulfilled rs) as [e|geocoded].
  - exists evs. split; [done|]. left. by exists e.
  - cbv zeta.
    exists (evs ++ [McpHosted.connection accessToken;
                    Requested
                      (McpResult.directions_request (map Geocoded.coordinates geocoded))
                      (McpHosted.answer accessToken
                         (McpResult.directions_request
                            (map Geocoded.coordinates geocoded)) (after evs w))]).
    assert (Hquiet : existsb geocode_failed
              (evs ++ [McpHosted.connection accessToken;
                       Requested
                         (McpResult.directions_request
                            (map Geocoded.coordinates geocoded))
                         (McpHosted.answer accessToken
                            (McpResult.directions_request
                               (map Geocoded.coordinates geocoded)) (after evs w))])
            = false).
    { rewrite existsb_app, Hfail. reflexivity. }
    split; [by rewrite Hquiet|].
    destruct (through _ _) as [e|r].
    + left. by exists e.
    + right. by eexists.
Qed.

(** ** Route planning is all or nothing (claim C8) *)

(** C8: if any geocoding call made for a plan-route request fails, the
    handler answers [500] with nothing but the message "Failed to geocode
    <name>" of one of the attractions, and no directions call is made.  The
    agent's [plan-route] tool, likewise, throws without calling the directions
    tool and captures no route data. *)
Theorem route_planning_all_or_nothing :
  (forall (attractions : option (list PlanRoute.Attraction)) (w : World),
      exists evs,
        trace (snd (PlanRoute.POST attractions w)) = trace w ++ evs
        /\ (existsb geocode_failed evs = true ->
            existsb directions_call evs = false
            /\ exists l attraction,
                 attractions = Some l
                 /\ In attraction l
                 /\ fst (PlanRoute.POST attractions w) =
                    inr {| PlanRoute.body :=
                             PlanRoute.ErrorBody
                               ("Failed to geocode " +:+ PlanRoute.name attraction);
                           PlanRoute.status := 500 |}))
  /\ (forall (accessToken : string) (locations : list string) (w : World),
        exists evs,
          trace (snd (Agent.planRouteTool accessToken locations w)) = trace w ++ evs
          /\ (existsb geocode_failed evs = true ->
              existsb directions_call evs = false
              /\ (exists e, fst (Agent.planRouteTool accessToken locations w) = inl e)
              /\ capturedRouteData (snd (Agent.planRouteTool accessToken locations w))
                 = capturedRouteData w
              /\ captures (snd (Agent.planRouteTool accessToken locations w))
                 = captures w)).
Proof.
  split.
  - apply POST_all_or_nothing.
  - intros accessToken locations w.
    destruct (planRouteTool_run accessToken locations w)
      as (evs & Hnd & [(e & Hrun)|(data & Hrun & Hok)]); rewrite Hrun; exists evs; simpl.
    + split; [done|]. intros Hf. split; [by apply Hnd|]. split; [by exists e|done].
    + split; [done|]. rewrite Hok. discriminate.
Qed.

Lemma route_planning_all_or_nothing_witness :
  let attractions :=
    Some [{| PlanRoute.id := "1"; PlanRoute.name := "White House";
             PlanRoute.address := "1600 Pennsylvania Ave NW" |};
          {| PlanRoute.id := "2"; PlanRoute.name := "The Lost City";
             PlanRoute.address := "Atlantis" |};
          {| PlanRoute.id := "3"; PlanRoute.name := "Capitol Hill";
             PlanRoute.address := "Capitol Hill" |}] in
  exists l attraction,
    attractions = Some l
    /\ In attraction l
    /\ fst (PlanRoute.POST attractions (Scenario.start Scenario.dc_server)) =
       inr {| PlanRoute.body :=
                PlanRoute.ErrorBody ("Failed to geocode " +:+ PlanRoute.name attraction);
              PlanRoute.status := 500 |}.
Proof.
  intros attractions.
  destruct (proj1 route_planning_all_or_nothing attractions
              (Scenario.start Scenario.dc_server)) as (evs & Ht & Hfail).
  simpl in Ht. subst evs.
  exact (proj2 (Hfail eq_refl)).
Defined.

(** ** The capture variables of the agent library (claims C3 and C10) *)

Lemma last_search_snoc (log : list Capture) (c : Capture) :
  last_search (log ++ [c]) =
  match c with
  | CapturedSearch results => Some results
  | CapturedRoute _ => last_search log
  end.
Proof.
  induction log as [|c' log IH]; simpl.
  - by destruct c.
  - rewrite IH. destruct c; [done|]. reflexivity.
Qed.

Lemma last_route_snoc (log : list Capture) (c : Capture) :
  last_route (log ++ [c]) =
  match c with
  | CapturedRoute data => Some data
  | CapturedSearch _ => last_route log
  end.
Proof.
  induction log as [|c' log IH]; simpl.
  - by destruct c.
  - rewrite IH. destruct c; [reflexivity|done].
Qed.

Lemma consistent_after (base : list Capture) (evs : list Event) (w : World) :
  consistent base w -> consistent base (after evs w).
Proof. done. Qed.

Lemma consistent_captured (base : list Capture) (c : Capture) (w : World) :
  consistent base w -> consistent base (captured c w).
Proof.
  intros (log & Hl & Hs & Hr). exists (log ++ [c]).
  rewrite last_search_snoc, last_route_snoc.
  destruct c; simpl; rewrite Hl, app_assoc; done.
Qed.

Lemma searchLocationTool_run (accessToken query : string) (w : World) :
  exists r evs, Agent.searchLocationTool accessToken query w = (r, after evs w).
Proof.
  unfold Agent.searchLocationTool, bind. rewrite hosted_geocodeLocation_run.
  destruct (through _ _); by eexists _, _.
Qed.

Lemma searchCategoryTool_eq (accessToken category near : string) (w : World) :
  Agent.searchCategoryTool accessToken category near w =
  let request1 := McpResult.geocode_request near in
  let response1 := McpHosted.answer accessToken request1 w in
  let evs1 := [McpHosted.connection accessToken; Requested request1 response1] in
  match through (McpResult.geocoded near) response1 with
  | inl e => (inl e, after evs1 w)
  | inr nearLocation =>
      let request2 :=
        McpResult.category_request category
          {| longitude := fst (Geocoded.coordinates nearLocation);
             latitude := snd (Geocoded.coordinates nearLocation) |} in
      let response2 := McpHosted.answer accessToken request2 (after evs1 w) in
      let evs2 :=
        evs1 ++ [McpHosted.connection accessToken; Requested request2 response2] in
      match through McpResult.searched response2 with
      | inl e => (inl e, after evs2 w)
      | inr results =>
          (inr (Agent.CategoryOutput (length results) results),
           captured (CapturedSearch results) (after evs2 w))
      end
  end.
Proof.
  unfold Agent.searchCategoryTool. unfold bind at 1.
  rewrite hosted_geocodeLocation_run. cbv zeta.
  destruct (through _ _) as [e|nearLocation]; [reflexivity|].
  unfold bind at 1. rewrite hosted_categorySearch_run, after_after.
  by destruct (through _ _).
Qed.

Lemma searchCategoryTool_run (accessToken category near : string) (w : World) :
  exists evs,
    (exists e, Agent.searchCategoryTool accessToken category near w = (inl e, after evs w))
    \/ (exists results,
          Agent.searchCategoryTool accessToken category near w =
          (inr (Agent.CategoryOutput (length results) results),
           captured (CapturedSearch results) (after evs w))).
Proof.
  rewrite searchCategoryTool_eq. cbv zeta.
  destruct (through _ _) as [e|nearLocation].
  { eexists. left. by exists e. }
  destruct (through _ _) as [e|results].
  { eexists. left. by exists e. }
  eexists. right. by exists results.
Qed.

(** A tool call leaves the capture variables as they were or, when it
    returns, makes one capture. *)
Lemma execute_run (accessToken : string) (call : Agent.ToolCall) (w : World) :
  exists evs,
    (exists r, Agent.execute accessToken call w = (r, after evs w))
    \/ (exists output c,
          Agent.execute accessToken call w = (inr output, captured c (after evs w))).
Proof.
  destruct call as [query|category near|locations]; simpl.
  - destruct (searchLocationTool_run accessToken query w) as (r & evs & H).
    exists evs. left. by exists r.
  - destruct (searchCategoryTool_run accessToken category near w)
      as (evs & [(e & H)|(results & H)]); exists evs.
    + left. by eexists.
    + right. by eexists _, _.
  - destruct (planRouteTool_run accessToken locations w)
      as (evs & _ & [(e & H)|(data & H & _)]); exists evs.
    + left. by eexists.
    + right. by eexists _, _.
Qed.

(** A tool call never throws into the agent: the agent is told how it ended. *)
Lemma invoke_run (accessToken : string) (call : Agent.ToolCall) (w : World) :
  exists outcome evs,
    Agent.invoke accessToken call w = (inr outcome, after evs w)
    \/ exists c, Agent.invoke accessToken call w = (inr outcome, captured c (after evs w)).
Proof.
  unfold Agent.invoke.
  destruct (Agent.inputSchema call).
  - unfold bind, ret. rewrite settle_run.
    destruct (execute_run accessToken call w) as (evs & [(r & H)|(output & c & H)]);
      rewrite H; simpl; eexists _, evs; [by left|right; by exists c].
  - exists Agent.InvalidInput, []. left. by rewrite after_nil.
Qed.

Lemma invoke_consistent (base : list Capture) (accessToken : string)
    (call : Agent.ToolCall) (w : World) :
  consistent base w ->
  exists outcome w',
    Agent.invoke accessToken call w = (inr outcome, w') /\ consistent base w'.
Proof.
  intros Hc.
  destruct (invoke_run accessToken call w) as (outcome & evs & [H|(c & H)]);
    rewrite H; eexists _, _; (split; [reflexivity|]).
  - by apply consistent_after.
  - by apply consistent_captured, consistent_after.
Qed.

Lemma generate_consistent (base : list Capture) (accessToken : string)
    (run : Agent.Run) :
  forall w, consistent base w ->
            consistent base (snd (Agent.generate accessToken run w)).
Proof.
  induction run as [answer|e|call next IH]; intros w Hc; simpl; try done.
  unfold bind.
  destruct (invoke_consistent base accessToken call w Hc) as (outcome & w' & -> & Hc').
  by apply IH.
Qed.

Lemma processNaturalLanguageQuery_run (model : string -> Agent.Run)
    (query accessToken : string) (w : World) :
  Agent.processNaturalLanguageQuery model query accessToken w =
  match Agent.generate accessToken (model query) (cleared w) with
  | (inl e, w') => (inl e, w')
  | (inr result_text, w') =>
      (inr {| Agent.AgentResponse.type :=
                Agent.response_type (capturedSearchResults w') (capturedRouteData w');
              Agent.AgentResponse.searchResults := capturedSearchResults w';
              Agent.AgentResponse.routeData := capturedRouteData w';
              Agent.AgentResponse.text := Js.or_default result_text "No response" |},
       w')
  end.
Proof.
  unfold Agent.processNaturalLanguageQuery, bind; simpl.
  fold (cleared w).
  by destruct (Agent.generate accessToken (model query) (cleared w)) as [[e|t] w'].
Qed.

(** C3, as the code has it: the envelope carries both capture variables, that
    is, the last search results and the last route data captured during the
    invocation (each absent if there was none), and its type is ['route'] if
    any route data was captured, else ['search_results'] if any search results
    were, else ['text']. *)
Theorem processNaturalLanguageQuery_envelope (model : string -> Agent.Run)
    (query accessToken : string) (w : World) (response : Agent.AgentResponse.t) :
  fst (Agent.processNaturalLanguageQuery model query accessToken w) = inr response ->
  exists log,
    captures (snd (Agent.processNaturalLanguageQuery model query accessToken w))
    = captures w ++ log
    /\ Agent.AgentResponse.searchResults response = last_search log
    /\ Agent.AgentResponse.routeData response = last_route log
    /\ Agent.AgentResponse.type response =
       match last_route log, last_search log with
       | Some _, _ => Agent.route
       | None, Some _ => Agent.search_results
       | None, None => Agent.text
       end.
Proof.
  rewrite processNaturalLanguageQuery_run.
  assert (Hc : consistent (captures w) (cleared w)).
  { exists []. simpl. by rewrite app_nil_r. }
  apply (generate_consistent _ accessToken (model query)) in Hc.
  destruct (Agent.generate accessToken (model query) (cleared w)) as [[e|t] w'];
    simpl in *; [discriminate|].
  intros [= <-]. destruct Hc as (log & Hl & Hs & Hr). exists log. simpl.
  rewrite Hs, Hr. repeat split; try done.
  unfold Agent.response_type. by destruct (last_route log), (last_search log).
Qed.

Lemma processNaturalLanguageQuery_envelope_witness :
  exists log,
    captures (snd (Agent.processNaturalLanguageQuery Scenario.route_then_search
                     "route, then coffee" "token" (Scenario.start Scenario.dc_server)))
    = [] ++ log
    /\ Some Scenario.coffee_results = last_search log
    /\ Some Scenario.planned_route = last_route log
    /\ Agent.route =
       match last_route log, last_search log with
       | Some _, _ => Agent.route
       | None, Some _ => Agent.search_results
       | None, None => Agent.text
       end.
Proof.
  exact (processNaturalLanguageQuery_envelope Scenario.route_then_search
           "route, then coffee" "token" (Scenario.start Scenario.dc_server)
           {| Agent.AgentResponse.type := Agent.route;
              Agent.AgentResponse.searchResults := Some Scenario.coffee_results;
              Agent.AgentResponse.routeData := Some Scenario.planned_route;
              Agent.AgentResponse.text := "Here you go." |}
           eq_refl).
Defined.

(** C3, as stated, fails: when the agent plans a route and then searches a
    category, the output produced most recently is the search results, yet
    the envelope is tagged ['route']. *)
Lemma route_then_search_is_tagged_route :
  let run :=
    Agent.processNaturalLanguageQuery Scenario.route_then_search
      "route, then coffee" "token" (Scenario.start Scenario.dc_server) in
  last (captures (snd run)) = Some (CapturedSearch Scenario.coffee_results)
  /\ fst run =
     inr {| Agent.AgentResponse.type := Agent.route;
            Agent.AgentResponse.searchResults := Some Scenario.coffee_results;
            Agent.AgentResponse.routeData := Some Scenario.planned_route;
            Agent.AgentResponse.text := "Here you go." |}
  /\ Agent.route <> Agent.search_results.
Proof.
  cbv zeta. split; [vm_compute; reflexivity|]. split; [vm_compute; reflexivity|].
  discriminate.
Qed.

Lemma generate_quiet (accessToken : string) (run : Agent.Run) :
  no_capturing_tool run ->
  forall w, exists evs, snd (Agent.generate accessToken run w) = after evs w.
Proof.
  induction 1 as [answer|e|query next _ IH]; intros w.
  - exists []. by rewrite after_nil.
  - exists []. by rewrite after_nil.
  - simpl. unfold bind, Agent.invoke; simpl. unfold bind, ret. rewrite settle_run.
    destruct (searchLocationTool_run accessToken query w) as (r & evs & ->); simpl.
    match goal with
    | |- context [Agent.generate accessToken (next ?o) _] =>
        destruct (IH o (after evs w)) as (evs' & ->)
    end.
    exists (evs ++ evs'). by rewrite after_after.
Qed.

Lemma generate_answers (accessToken : string) (run : Agent.Run) :
  answers run ->
  forall w, exists result_text, fst (Agent.generate accessToken run w) = inr result_text.
Proof.
  induction 1 as [answer|call next _ IH]; intros w.
  - by exists answer.
  - simpl. unfold bind.
    destruct (invoke_run accessToken call w) as (outcome & evs & [->| (c & ->)]);
      apply IH.
Qed.

(** C10: [processNaturalLanguageQuery] starts by clearing both capture
    variables, so its result is the same whatever they held before; from any
    state, a run in which the agent calls no capturing tool returns an
    envelope of type ['text'] whose [searchResults] and [routeData] are both
    undefined; and a run in which the agent answers does return. *)
Theorem captures_cleared_at_start (model : string -> Agent.Run)
    (query accessToken : string) (w : World) :
  (forall searched routed,
      Agent.processNaturalLanguageQuery model query accessToken
        (mkWorld (server w) (trace w) (mcpClient w) searched routed (captures w))
      = Agent.processNaturalLanguageQuery model query accessToken w)
  /\ (no_capturing_tool (model query) ->
      forall response,
        fst (Agent.processNaturalLanguageQuery model query accessToken w) = inr response ->
        Agent.AgentResponse.type response = Agent.text
        /\ Agent.AgentResponse.searchResults response = None
        /\ Agent.AgentResponse.routeData response = None)
  /\ (answers (model query) ->
      exists response,
        fst (Agent.processNaturalLanguageQuery model query accessToken w) = inr response).
Proof.
  split; [|split].
  - intros searched routed. by rewrite !processNaturalLanguageQuery_run.
  - intros Hq response. rewrite processNaturalLanguageQuery_run.
    destruct (generate_quiet accessToken _ Hq (cleared w)) as (evs & Hw).
    destruct (Agent.generate accessToken (model query) (cleared w)) as [[e|t] w'];
      simpl in *; [discriminate|].
    intros [= <-]. by subst w'.
  - intros Ha. rewrite processNaturalLanguageQuery_run.
    destruct (generate_answers accessToken _ Ha (cleared w)) as (t & Ht).
    destruct (Agent.generate accessToken (model query) (cleared w)) as [[e|t'] w'];
      simpl in *; [discriminate|]. by eexists.
Qed.

(** Two calls in sequence: the first captures search results and route data,
    the second, in which the agent only looks a place up, carries none. *)
Lemma captures_cleared_at_start_witness :
  let first :=
    Agent.processNaturalLanguageQuery Scenario.route_then_search
      "route, then coffee" "token" (Scenario.start Scenario.dc_server) in
  let second :=
    Agent.processNaturalLanguageQuery Scenario.lookup_only
      "Lincoln Memorial" "token" (snd first) in
  capturedSearchResults (snd first) = Some Scenario.coffee_results
  /\ capturedRouteData (snd first) = Some Scenario.planned_route
  /\ fst second =
     inr {| Agent.AgentResponse.type := Agent.text;
            Agent.AgentResponse.searchResults := None;
            Agent.AgentResponse.routeData := None;
            Agent.AgentResponse.text := "No response" |}.
Proof.
  cbv zeta. split; [vm_compute; reflexivity|]. split; [vm_compute; reflexivity|].
  pose proof (captures_cleared_at_start Scenario.lookup_only "Lincoln Memorial" "token"
    (snd (Agent.processNaturalLanguageQuery Scenario.route_then_search
            "route, then coffee" "token" (Scenario.start Scenario.dc_server))))
    as (_ & Hquiet & Hanswers).
  destruct Hanswers as (response & Hr).
  { apply answers_invoke. intros outcome. apply answers_respond. }
  destruct (Hquiet (quiet_invoke _ _ (fun _ => quiet_respond None)) response Hr)
    as (Ht & Hs & Hd).
  rewrite Hr. f_equal. destruct response as [type searched routed text].
  simpl in Ht, Hs, Hd. subst. f_equal.
  vm_compute in Hr. by injection Hr as <-.
Defined.

(** ** Unit conversion (claim C4) *)

(** [round_half_up num den] is the integer nearest to [num / den], and the
    larger of the two when [num / den] lies half way between two integers. *)
Lemma round_half_up_nearest (num den : Z) :
  0 < den ->
  - den < 2 * (Js.round_half_up num den * den - num) <= den.
Proof.
  intros Hden. unfold Js.round_half_up.
  pose proof (Z.div_mod (2 * num + den) (2 * den) ltac:(lia)) as Hdiv.
  pose proof (Z.mod_pos_bound (2 * num + den) (2 * den) ltac:(lia)) as Hmod.
  nia.
Qed.

(** C4: the agent's [plan-route] tool reports the distance as
    [(meters * 0.000621371).toFixed(2)] and the handler as the number
    [meters * 0.000621371]; both report the duration as
    [Math.round(seconds / 60)].  [toFixed(2)] and [Math.round] round the exact
    value to the nearest hundredth and the nearest integer.  So 1609.34 m is
    "1.00" miles, 125 s is 2 minutes, and a route of 1600 m and 600 s between
    two places is reported as "0.99" miles and 10 minutes, with the two
    locations in input order. *)
Theorem unit_conversion :
  (forall geocoded r,
      AgentRouteData.distance (Agent.route_data geocoded r)
      = Js.toFixed (Route.distance r * 0.000621371)%float 2
      /\ AgentRouteData.duration (Agent.route_data geocoded r)
         = Js.Math_round (Route.duration r / 60)%float)
  /\ (forall locations r,
        PlanRoute.RouteData.distance (PlanRoute.route_data locations r)
        = (Route.distance r * 0.000621371)%float
        /\ PlanRoute.RouteData.duration (PlanRoute.route_data locations r)
           = Js.Math_round (Route.duration r / 60)%float)
  /\ (forall num den, 0 < den ->
        - den < 2 * (Js.round_half_up num den * den - num) <= den)
  /\ Js.toFixed (1609.34 * 0.000621371)%float 2 = "1.00"
  /\ Js.Math_round (125 / 60)%float = 2%float
  /\ Js.toFixed (1600 * 0.000621371)%float 2 = "0.99"
  /\ Js.Math_round (600 / 60)%float = 10%float
  /\ (let run :=
        Agent.planRouteTool "token" ["White House"; "Capitol Hill"]
          (Scenario.start Scenario.dc_server) in
      fst run = inr (Agent.RouteOutput "0.99" 10%float)
      /\ capturedRouteData (snd run) = Some Scenario.planned_route
      /\ map Geocoded.name (AgentRouteData.locations Scenario.planned_route)
         = [Some "White House"; Some "Capitol Hill"]).
Proof.
  split; [by intros|]. split; [by intros|].
  split; [exact round_half_up_nearest|].
  repeat split; vm_compute; reflexivity.
Qed.

Lemma unit_conversion_witness :
  - 2 < 2 * (Js.round_half_up 7 2 * 2 - 7) <= 2.
Proof.
  apply (proj1 (proj2 (proj2 unit_conversion)) 7 2). lia.
Defined.

(** ** The authorization URL (claim C9) *)

Lemma append_assoc (a b c : string) : (a +:+ b) +:+ c = a +:+ (b +:+ c).
Proof.
  induction a as [|x a IH]; [reflexivity|].
  change (String x ((a +:+ b) +:+ c) = String x (a +:+ (b +:+ c))).
  by rewrite IH.
Qed.

(** C9, as the code has it: [getAuthorizationUrl] is a total function of the
    environment, the state and the optional client id.  The endpoint is a
    constant; a client id that is absent or empty is replaced by the
    configured one and, failing that, by the empty string; an unset redirect
    URI is replaced by the localhost one.  Nothing is thrown. *)
Theorem getAuthorizationUrl_total (env : OAuth.Env) (state : string)
    (clientId : option string) :
  OAuth.getAuthorizationUrl env state clientId =
  "https://api.mapbox.com/oauth/authorize?response_type=code&client_id="
  +:+ Js.urlencoded_serialize
        (Js.or_default clientId
           (Js.or_default (OAuth.NEXT_PUBLIC_MAPBOX_OAUTH_CLIENT_ID env) ""))
  +:+ "&redirect_uri="
  +:+ Js.urlencoded_serialize
        (Js.or_default (OAuth.NEXT_PUBLIC_OAUTH_REDIRECT_URI env)
           "http://localhost:3000/auth/callback")
  +:+ "&scope=styles%3Atiles+styles%3Aread+fonts%3Aread+datasets%3Aread&state="
  +:+ Js.urlencoded_serialize state.
Proof.
  unfold OAuth.getAuthorizationUrl, OAuth.OAUTH_CONFIG; simpl.
  rewrite !append_assoc. reflexivity.
Qed.

(** C9, as stated, fails: with no client id given and none configured,
    nothing is thrown; the URL is built with an empty [client_id] (and the
    localhost redirect URI). *)
Lemma getAuthorizationUrl_without_client_id :
  OAuth.getAuthorizationUrl
    {| OAuth.NEXT_PUBLIC_MAPBOX_OAUTH_CLIENT_ID := None;
       OAuth.NEXT_PUBLIC_OAUTH_REDIRECT_URI := None |}
    "r4nd0m" None
  = "https://api.mapbox.com/oauth/authorize?response_type=code&client_id=&redirect_uri=http%3A%2F%2Flocalhost%3A3000%2Fauth%2Fcallback&scope=styles%3Atiles+styles%3Aread+fonts%3Aread+datasets%3Aread&state=r4nd0m".
Proof. vm_compute. reflexivity. Qed.

(** ** The OAuth callback (claim C1) *)

Lemma tokenStorage_get_with_oauth_state (v : string) (b : OAuth.Browser) :
  OAuth.tokenStorage.get (with_oauth_state v b) = OAuth.tokenStorage.get b.
Proof.
  unfold OAuth.tokenStorage.get, with_oauth_state; simpl.
  by rewrite lookup_insert_ne.
Qed.

Lemma tokenStorage_set_with_oauth_state (v token : string) (b : OAuth.Browser) :
  OAuth.tokenStorage.set token (with_oauth_state v b)
  = with_oauth_state v (OAuth.tokenStorage.set token b).
Proof.
  unfold OAuth.tokenStorage.set, with_oauth_state, OAuth.set_sessionStorage; simpl.
  by rewrite insert_insert_ne.
Qed.

Lemma setAccessToken_with_oauth_state (v : string) (b : OAuth.Browser) x :
  OAuth.setAccessToken x (with_oauth_state v b)
  = with_oauth_state v (OAuth.setAccessToken x b).
Proof. reflexivity. Qed.

Lemma setLoading_with_oauth_state (v : string) (b : OAuth.Browser) x :
  OAuth.setLoading x (with_oauth_state v b)
  = with_oauth_state v (OAuth.setLoading x b).
Proof. reflexivity. Qed.

Lemma setError_with_oauth_state (v : string) (b : OAuth.Browser) x :
  OAuth.setError x (with_oauth_state v b)
  = with_oauth_state v (OAuth.setError x b).
Proof. reflexivity. Qed.

Lemma replaceState_with_oauth_state (v : string) (b : OAuth.Browser) :
  OAuth.replaceState_pathname (with_oauth_state v b)
  = with_oauth_state v (OAuth.replaceState_pathname b).
Proof. reflexivity. Qed.

Lemma exchangeCodeForToken_with_oauth_state (env : OAuth.Env)
    (token_endpoint : list OAuth.FetchRequest -> OAuth.FetchRequest ->
                      Js.error + OAuth.Response OAuth.TokenData)
    (code v : string) (b : OAuth.Browser) :
  OAuth.exchangeCodeForToken env token_endpoint code (with_oauth_state v b)
  = (fst (OAuth.exchangeCodeForToken env token_endpoint code b),
     with_oauth_state v (snd (OAuth.exchangeCodeForToken env token_endpoint code b))).
Proof.
  unfold OAuth.exchangeCodeForToken.
  change (OAuth.clientStorage.get (with_oauth_state v b))
    with (OAuth.clientStorage.get b).
  destruct (String.eqb _ ""); [reflexivity|].
  change (OAuth.fetched (with_oauth_state v b)) with (OAuth.fetched b).
  by destruct (token_endpoint _ _) as [e|[data|text]].
Qed.

Lemma exchange_settled_with_oauth_state (r : Js.error + OAuth.TokenData)
    (v : string) (b : OAuth.Browser) :
  OAuth.exchange_settled r (with_oauth_state v b)
  = with_oauth_state v (OAuth.exchange_settled r b).
Proof.
  unfold OAuth.exchange_settled. destruct r as [err|tokenData]; [reflexivity|].
  by rewrite tokenStorage_set_with_oauth_state.
Qed.

Create Rewrite HintDb oauth_state.

#[local] Hint Rewrite tokenStorage_set_with_oauth_state
  setAccessToken_with_oauth_state setLoading_with_oauth_state
  setError_with_oauth_state replaceState_with_oauth_state
  exchangeCodeForToken_with_oauth_state exchange_settled_with_oauth_state
  : oauth_state.

(** The effect never reads the stored OAuth state: whatever value is stored,
    it makes the same requests and leaves the same page state. *)
Lemma useEffect_with_oauth_state (env : OAuth.Env)
    (token_endpoint : list OAuth.FetchRequest -> OAuth.FetchRequest ->
                      Js.error + OAuth.Response OAuth.TokenData)
    (v : string) (b : OAuth.Browser) :
  OAuth.useEffect env token_endpoint (with_oauth_state v b)
  = with_oauth_state v (OAuth.useEffect env token_endpoint b).
Proof.
  unfold OAuth.useEffect.
  rewrite tokenStorage_get_with_oauth_state.
  destruct (Js.truthy (OAuth.tokenStorage.get b)); [reflexivity|].
  change (OAuth.location (with_oauth_state v b)) with (OAuth.location b).
  destruct (negb (String.eqb (OAuth.hash (OAuth.location b)) "")).
  - cbv zeta.
    generalize (Js.URLSearchParams (Js.substring1 (OAuth.hash (OAuth.location b)))).
    intros params.
    destruct (Js.get "access_token" params) as [[|c t]|];
      destruct (Js.get "code" params) as [[|c' code]|];
      try destruct (Js.truthy (Js.get "state" params));
      autorewrite with oauth_state;
      try destruct (OAuth.exchangeCodeForToken _ _ _ _) as [r b'];
      cbn [fst snd];
      try (destruct (Js.get "error" _) as [[|c0 e]|]);
      autorewrite with oauth_state; reflexivity.
  - destruct (Js.get "error" _) as [[|c0 e]|]; reflexivity.
Qed.

(** C1, at the failing input: the application has issued and stored the state
    ["issued-state"]; a callback then arrives with a code and the different
    state ["forged-state"].  The callback route forwards both to the page, and
    the page exchanges the code for a token and signs the user in.  The stored
    state is never compared with the one received: the effect does the same
    whatever state is stored.  Only a callback without a state stops short of
    the exchange (with the error [missing_parameters]). *)
Theorem callback_with_forged_state :
  let b0 :=
    OAuth.handleLogin Scenario.env Scenario.closed_registration "issued-state"
      Scenario.opened in
  let redirect := OAuth.GET [("code", "intercepted-code"); ("state", "forged-state")] in
  let b1 :=
    OAuth.useEffect Scenario.env Scenario.granting_endpoint (OAuth.navigate redirect b0) in
  let stateless := OAuth.GET [("code", "intercepted-code")] in
  let b2 :=
    OAuth.useEffect Scenario.env Scenario.granting_endpoint (OAuth.navigate stateless b0) in
  OAuth.sessionStorage b0 !! "oauth_state" = Some "issued-state"
  /\ redirect =
     {| OAuth.pathname := "/"; OAuth.search := "";
        OAuth.hash := "#code=intercepted-code&state=forged-state" |}
  /\ OAuth.fetched b1 =
     [{| OAuth.url := "https://mcp.mapbox.com/oauth/token";
         OAuth.method := "POST";
         OAuth.content_type := "application/x-www-form-urlencoded";
         OAuth.body :=
           OAuth.Form "grant_type=authorization_code&code=intercepted-code&client_id=demo-client&redirect_uri=http%3A%2F%2Flocalhost%3A3000%2Fauth%2Fcallback" |}]
  /\ OAuth.accessToken b1 = Some "pk.granted"
  /\ OAuth.error b1 = None
  /\ OAuth.sessionStorage b1 !! "oauth_state" = Some "issued-state"
  /\ (forall env token_endpoint stored b,
        OAuth.useEffect env token_endpoint (with_oauth_state stored b)
        = with_oauth_state stored (OAuth.useEffect env token_endpoint b))
  /\ stateless =
     {| OAuth.pathname := "/"; OAuth.search := "?error=missing_parameters";
        OAuth.hash := "" |}
  /\ OAuth.fetched b2 = []
  /\ OAuth.accessToken b2 = None
  /\ OAuth.error b2 = Some "OAuth error: missing_parameters".
Proof.
  cbv zeta.
  repeat match goal with
         | |- (forall _, _) /\ _ => split; [exact useEffect_with_oauth_state|]
         | |- _ /\ _ => split; [vm_compute; reflexivity|]
         end.
  vm_compute; reflexivity.
Qed.

(** * Further properties of the code *)

(** ** The operations of [lib/mcp.ts] *)

Lemma no_routes_nil (result : CallToolResult) :
  no_routes result <-> McpResult.routes_of (structuredContent result) = [].
Proof.
  unfold no_routes, McpResult.routes_of.
  destruct (structuredContent result) as [data|]; [|done].
  destruct (routes data) as [[|r rs]|]; split; intros H; try done;
    first [by left | by right | by destruct H].
Qed.

Lemma routed_success (result : CallToolResult) :
  isError result = false ->
  McpResult.routed result =
  match McpResult.routes_of (structuredContent result) with
  | [] => inl (Js.Error "No route found")
  | r :: _ => inr r
  end.
Proof.
  intros He. unfold McpResult.routed, McpResult.check_for_errors. by rewrite He.
Qed.

(** X1: when the directions tool call succeeds, [calculateRoute] (of either
    variant) throws "No route found" if the route list is missing or empty,
    and otherwise returns the first route, whatever follows it. *)
Theorem calculateRoute_result (coordinates : list Position) (result : CallToolResult) :
  isError result = false ->
  (forall accessToken w,
      McpHosted.answer accessToken (McpResult.directions_request coordinates) w
      = inr result ->
      (no_routes result ->
       fst (McpHosted.calculateRoute coordinates accessToken w)
       = inl (Js.Error "No route found"))
      /\ (forall data r others,
            structuredContent result = Some data ->
            routes data = Some (r :: others) ->
            fst (McpHosted.calculateRoute coordinates accessToken w) = inr r))
  /\ (forall w,
        McpLocal.answer (McpResult.directions_request coordinates) w = inr result ->
        (no_routes result ->
         fst (McpLocal.calculateRoute coordinates w) = inl (Js.Error "No route found"))
        /\ (forall data r others,
              structuredContent result = Some data ->
              routes data = Some (r :: others) ->
              fst (McpLocal.calculateRoute coordinates w) = inr r)).
Proof.
  intros He.
  assert (Hsome : forall data r others,
             structuredContent result = Some data ->
             routes data = Some (r :: others) ->
             McpResult.routed result = inr r).
  { intros data r others Hd Hr. rewrite (routed_success _ He).
    unfold McpResult.routes_of. by rewrite Hd, Hr. }
  assert (Hnone : no_routes result ->
                  McpResult.routed result = inl (Js.Error "No route found")).
  { intros Hn. rewrite (routed_success _ He).
    apply no_routes_nil in Hn. by rewrite Hn. }
  split.
  - intros accessToken w Ha. rewrite hosted_calculateRoute_run, Ha; simpl.
    split; [exact Hnone|exact Hsome].
  - intros w Ha. rewrite local_calculateRoute_run, Ha; simpl.
    split; [exact Hnone|exact Hsome].
Qed.

Lemma calculateRoute_result_witness :
  fst (McpLocal.calculateRoute [Scenario.white_house; Scenario.white_house]
         (Scenario.start (Scenario.always
            (Scenario.success {| features := None; routes := Some [] |}))))
  = inl (Js.Error "No route found").
Proof.
  apply (proj1 (proj2 (calculateRoute_result
                         [Scenario.white_house; Scenario.white_house]
                         (Scenario.success {| features := None; routes := Some [] |})
                         eq_refl)
                 (Scenario.start (Scenario.always
                    (Scenario.success {| features := None; routes := Some [] |})))
                 eq_refl)).
  simpl. by right.
Defined.

Lemma check_for_errors_throws (result : CallToolResult) :
  isError result = true ->
  exists e, McpResult.check_for_errors result = inl e.
Proof.
  intros He. unfold McpResult.check_for_errors. rewrite He.
  destruct (content result) as [|[text|data mimeType|uri] rest]; by eexists.
Qed.

(** X2: a tool result marked [isError] never yields data.  Whatever its
    structured content holds, each of the three operations (of either variant)
    throws, and all throw the same error, the one of the error check. *)
Theorem tool_error_always_throws (result : CallToolResult) :
  isError result = true ->
  exists e,
    McpResult.check_for_errors result = inl e
    /\ (forall address accessToken w,
          McpHosted.answer accessToken (McpResult.geocode_request address) w
          = inr result ->
          fst (McpHosted.geocodeLocation address accessToken w) = inl e)
    /\ (forall category proximity accessToken w,
          McpHosted.answer accessToken
            (McpResult.category_request category proximity) w = inr result ->
          fst (McpHosted.categorySearch category proximity accessToken w) = inl e)
    /\ (forall coordinates accessToken w,
          McpHosted.answer accessToken (McpResult.directions_request coordinates) w
          = inr result ->
          fst (McpHosted.calculateRoute coordinates accessToken w) = inl e)
    /\ (forall address w,
          McpLocal.answer (McpResult.geocode_request address) w = inr result ->
          fst (McpLocal.geocodeLocation address w) = inl e)
    /\ (forall category proximity w,
          McpLocal.answer (McpResult.category_request category proximity) w
          = inr result ->
          fst (McpLocal.categorySearch category proximity w) = inl e)
    /\ (forall coordinates w,
          McpLocal.answer (McpResult.directions_request coordinates) w = inr result ->
          fst (McpLocal.calculateRoute coordinates w) = inl e).
Proof.
  intros He. destruct (check_for_errors_throws result He) as (e & Hcheck).
  destruct (operations_throw_check_for_errors result e Hcheck) as (Hg & Hs & Hr).
  exists e. split; [exact Hcheck|].
  repeat split.
  - intros address accessToken w Ha.
    rewrite hosted_geocodeLocation_run, Ha. simpl. apply Hg.
  - intros category proximity accessToken w Ha.
    rewrite hosted_categorySearch_run, Ha. simpl. exact Hs.
  - intros coordinates accessToken w Ha.
    rewrite hosted_calculateRoute_run, Ha. simpl. exact Hr.
  - intros address w Ha.
    rewrite local_geocodeLocation_run, Ha. simpl. apply Hg.
  - intros category proximity w Ha.
    unfold McpLocal.categorySearch. rewrite local_run, Ha. simpl. exact Hs.
  - intros coordinates w Ha.
    rewrite local_calculateRoute_run, Ha. simpl. exact Hr.
Qed.

Lemma tool_error_always_throws_witness :
  exists e,
    McpResult.check_for_errors
      {| isError := true; content := [TextContent "rate limited"];
         structuredContent :=
           Some {| features := Some [Scenario.feature "White House"];
                   routes := Some [Scenario.two_point_route] |} |} = inl e
    /\ e = Js.Error "MCP tool error: rate limited".
Proof.
  destruct (tool_error_always_throws
              {| isError := true; content := [TextContent "rate limited"];
                 structuredContent :=
                   Some {| features := Some [Scenario.feature "White House"];
                           routes := Some [Scenario.two_point_route] |} |} eq_refl)
    as (e & He & _).
  exists e. split; [exact He|].
  simpl in He. by injection He as <-.
Defined.

(** *** Connections *)

Lemma own_connections_app (accessToken : string) (evs1 evs2 : list Event) :
  own_connections accessToken evs1 = true ->
  own_connections accessToken evs2 = true ->
  own_connections accessToken (evs1 ++ evs2) = true.
Proof.
  revert evs1.
  assert (H : forall n evs1, (length evs1 <= n)%nat ->
              own_connections accessToken evs1 = true ->
              own_connections accessToken evs2 = true ->
              own_connections accessToken (evs1 ++ evs2) = true).
  { induction n as [|n IH]; intros evs1 Hlen H1 H2.
    - destruct evs1; [exact H2|simpl in Hlen; lia].
    - destruct evs1 as [|[[url authorization|command args]|request response] [|[via|request' response'] rest]];
        simpl in H1 |- *; try done.
      apply andb_true_iff in H1 as [Hhead Hrest]. rewrite Hhead. simpl.
      apply IH; [simpl in Hlen; lia|done|done]. }
  intros evs1. by apply (H (length evs1)).
Qed.

Lemma own_connections_count (accessToken : string) (evs : list Event) :
  own_connections accessToken evs = true ->
  length evs = (2 * connections evs)%nat /\ Forall (fun e =>
    match e with
    | Connected via =>
        via = StreamableHTTP "https://mcp.mapbox.com/mcp" ("Bearer " +:+ accessToken)
    | Requested _ _ => True
    end) evs.
Proof.
  assert (H : forall n evs, (length evs <= n)%nat ->
              own_connections accessToken evs = true ->
              length evs = (2 * connections evs)%nat /\ Forall (fun e =>
                match e with
                | Connected via =>
                    via = StreamableHTTP "https://mcp.mapbox.com/mcp"
                            ("Bearer " +:+ accessToken)
                | Requested _ _ => True
                end) evs).
  { induction n as [|n IH]; intros l Hlen Hown.
    - destruct l; [by split|simpl in Hlen; lia].
    - destruct l as [|[[url authorization|command args]|request response] [|[via|request' response'] rest]];
        simpl in Hown; try done.
      apply andb_true_iff in Hown as [Hhead Hrest].
      apply andb_true_iff in Hhead as [Hurl Hauth].
      apply String.eqb_eq in Hurl, Hauth. subst.
      destruct (IH rest ltac:(simpl in Hlen; lia) Hrest) as [Hl Hf].
      split; [simpl; lia|]. by repeat constructor. }
  intros Hown. by apply (H (length evs)).
Qed.

Section OwnConnections.

Variable accessToken : string.

Lemma koc_ret {A} (a : A) : keeps_own_connections accessToken (ret a).
Proof. intros w. exists []. simpl. by rewrite app_nil_r. Qed.

Lemma koc_lift {A} (r : Js.error + A) : keeps_own_connections accessToken (lift r).
Proof. intros w. exists []. simpl. by rewrite app_nil_r. Qed.

Lemma koc_throw {A} (e : Js.error) : keeps_own_connections accessToken (@throw A e).
Proof. intros w. exists []. simpl. by rewrite app_nil_r. Qed.

Lemma koc_bind {A B} (m : M A) (k : A -> M B) :
  keeps_own_connections accessToken m ->
  (forall a, keeps_own_connections accessToken (k a)) ->
  keeps_own_connections accessToken (bind m k).
Proof.
  intros Hm Hk w. unfold bind.
  destruct (Hm w) as (evs1 & Ht1 & Ho1).
  destruct (m w) as [[e|a] w1]; simpl in Ht1.
  - by exists evs1.
  - destruct (Hk a w1) as (evs2 & Ht2 & Ho2).
    exists (evs1 ++ evs2). rewrite Ht2, Ht1, app_assoc.
    split; [done|by apply own_connections_app].
Qed.

Lemma koc_settle {A} (m : M A) :
  keeps_own_connections accessToken m ->
  keeps_own_connections accessToken (settle m).
Proof. intros Hm w. rewrite settle_run. apply Hm. Qed.

Lemma koc_try_catch {A} (m : M A) (handler : Js.error -> M A) :
  keeps_own_connections accessToken m ->
  (forall e, keeps_own_connections accessToken (handler e)) ->
  keeps_own_connections accessToken (try_catch m handler).
Proof.
  intros Hm Hh w. unfold try_catch.
  destruct (Hm w) as (evs1 & Ht1 & Ho1).
  destruct (m w) as [[e|a] w1]; simpl in Ht1.
  - destruct (Hh e w1) as (evs2 & Ht2 & Ho2).
    exists (evs1 ++ evs2). rewrite Ht2, Ht1, app_assoc.
    split; [done|by apply own_connections_app].
  - by exists evs1.
Qed.

Lemma koc_callMCPTool (toolName : string) (toolArgs : ToolArgs) :
  keeps_own_connections accessToken
    (McpHosted.callMCPTool toolName toolArgs accessToken).
Proof.
  intros w. rewrite callMCPTool_run. eexists. split; [reflexivity|].
  simpl. by rewrite String.eqb_refl.
Qed.

Lemma koc_assign_search v :
  keeps_own_connections accessToken (Agent.assign_capturedSearchResults v).
Proof. intros w. exists []. simpl. by rewrite app_nil_r. Qed.

Lemma koc_assign_route v :
  keeps_own_connections accessToken (Agent.assign_capturedRouteData v).
Proof. intros w. exists []. simpl. by rewrite app_nil_r. Qed.

Lemma koc_geocodeLocation (address : string) :
  keeps_own_connections accessToken (McpHosted.geocodeLocation address accessToken).
Proof.
  apply koc_bind; [apply koc_callMCPTool|intros; apply koc_lift].
Qed.

Lemma koc_categorySearch (category : string) (proximity : LngLat) :
  keeps_own_connections accessToken
    (McpHosted.categorySearch category proximity accessToken).
Proof.
  apply koc_bind; [apply koc_callMCPTool|intros; apply koc_lift].
Qed.

Lemma koc_calculateRoute (coordinates : list Position) :
  keeps_own_connections accessToken (McpHosted.calculateRoute coordinates accessToken).
Proof.
  apply koc_bind; [apply koc_callMCPTool|intros; apply koc_lift].
Qed.

Lemma koc_settle_all {A} (calls : list (M A)) :
  Forall (keeps_own_connections accessToken) calls ->
  keeps_own_connections accessToken (Agent.settle_all calls).
Proof.
  induction 1 as [|call calls Hcall _ IH]; cbn [Agent.settle_all].
  - apply koc_ret.
  - apply koc_bind; [by apply koc_settle|intros r].
    apply koc_bind; [exact IH|intros rs; apply koc_ret].
Qed.

Lemma koc_execute (call : Agent.ToolCall) :
  keeps_own_connections accessToken (Agent.execute accessToken call).
Proof.
  destruct call as [query|category near|locations]; simpl.
  - apply koc_bind; [apply koc_geocodeLocation|intros; apply koc_ret].
  - apply koc_bind; [apply koc_geocodeLocation|intros nearLocation].
    apply koc_bind; [apply koc_categorySearch|intros results].
    apply koc_bind; [apply koc_assign_search|intros; apply koc_ret].
  - unfold Agent.planRouteTool, Agent.Promise_all.
    apply koc_bind.
    + apply koc_bind; [|intros; apply koc_lift].
      apply koc_settle_all.
      induction locations as [|loc rest IH]; constructor;
        [apply koc_geocodeLocation|exact IH].
    + intros geocoded. cbv zeta.
      apply koc_bind; [apply koc_calculateRoute|intros r].
      apply koc_bind; [apply koc_assign_route|intros; apply koc_ret].
Qed.

Lemma koc_generate (run : Agent.Run) :
  keeps_own_connections accessToken (Agent.generate accessToken run).
Proof.
  induction run as [answer|e|call next IH]; simpl.
  - apply koc_ret.
  - apply koc_throw.
  - apply koc_bind; [|exact IH].
    unfold Agent.invoke. destruct (Agent.inputSchema call); [|apply koc_ret].
    apply koc_bind; [apply koc_settle, koc_execute|intros; apply koc_ret].
Qed.

Lemma koc_processNaturalLanguageQuery (model : string -> Agent.Run) (query : string) :
  keeps_own_connections accessToken
    (Agent.processNaturalLanguageQuery model query accessToken).
Proof.
  unfold Agent.processNaturalLanguageQuery.
  apply koc_bind; [apply koc_assign_search|intros _].
  apply koc_bind; [apply koc_assign_route|intros _].
  apply koc_bind; [apply koc_generate|intros result_text].
  intros w. exists []. simpl. by rewrite app_nil_r.
Qed.

End OwnConnections.

(** X3: whatever the agent does with a natural-language query, every request
    it makes to the server goes over a connection of its own, opened just
    before the request with [Authorization: Bearer <accessToken>] to the
    hosted endpoint: the events of the call are connection and request by
    turns, and no connection is reused or left unused. *)
Theorem query_requests_have_own_connection (model : string -> Agent.Run)
    (query accessToken : string) (w : World) :
  exists evs,
    trace (snd (Agent.processNaturalLanguageQuery model query accessToken w))
    = trace w ++ evs
    /\ own_connections accessToken evs = true
    /\ length evs = (2 * connections evs)%nat
    /\ Forall (fun e =>
         match e with
         | Connected via =>
             via = StreamableHTTP "https://mcp.mapbox.com/mcp"
                     ("Bearer " +:+ accessToken)
         | Requested _ _ => True
         end) evs.
Proof.
  destruct (koc_processNaturalLanguageQuery accessToken model query w)
    as (evs & Ht & Ho).
  exists evs. split; [exact Ht|]. split; [exact Ho|].
  by apply own_connections_count.
Qed.



Section OneClient.


Lemma k1c_lift {A} (r : Js.error + A) : keeps_one_client (lift r).
Proof. intros w. exists []. simpl. rewrite app_nil_r. repeat split; [lia|done]. Qed.









End OneClient.




(** ** The plan-route handler *)




(** X6: the plan-route handler never throws: it always answers, with status
    200, 400 or 500.  The status is 400 exactly when the attraction list is
    missing or has fewer than 2 attractions, and 200 exactly when the body is
    route data; every other answer is an error message with status 500. *)
Theorem POST_always_answers (attractions : option (list PlanRoute.Attraction))
    (w : World) :
  exists response,
    fst (PlanRoute.POST attractions w) = inr response
    /\ (PlanRoute.status response = 200
        \/ PlanRoute.status response = 400
        \/ PlanRoute.status response = 500)
    /\ (PlanRoute.status response = 400 <->
        match attractions with
        | None => True
        | Some l => (length l < 2)%nat
        end)
    /\ (PlanRoute.status response = 200 <->
        exists data, PlanRoute.body response = PlanRoute.RouteBody data).
Proof.
  assert (Hfew : match attractions with
                 | None => True
                 | Some l => (length l < 2)%nat
                 end ->
                 exists response,
                   fst (PlanRoute.POST attractions w) = inr response
                   /\ (PlanRoute.status response = 200
                       \/ PlanRoute.status response = 400
                       \/ PlanRoute.status response = 500)
                   /\ (PlanRoute.status response = 400 <->
                       match attractions with
                       | None => True
                       | Some l => (length l < 2)%nat
                       end)
                   /\ (PlanRoute.status response = 200 <->
                       exists data,
                         PlanRoute.body response = PlanRoute.RouteBody data)).
  { intros Ha. rewrite (POST_few_attractions attractions w Ha).
    eexists. split; [reflexivity|]. simpl. split; [by right; left|].
    split; [done|]. split; [done|]. by intros (data & Hd). }
  destruct attractions as [l|]; [|by apply Hfew].
  destruct (le_lt_dec 2 (length l)) as [Hlen|Hlen]; [|by apply Hfew].
  clear Hfew. rewrite (POST_run l w Hlen).
  pose proof (geocode_attractions_run l [] w) as (evs & _ & _ & Hres).
  destruct (PlanRoute.geocode_attractions l [] w) as [[e|[response|locations]] w1];
    simpl in Hres.
  - done.
  - destruct Hres as (a & _ & ->). eexists. split; [reflexivity|]. simpl.
    split; [by right; right|]. split; [split; [done|lia]|].
    split; [done|]. by intros (data & Hd).
  - cbv zeta. destruct (through _ _) as [e|r]; eexists; (split; [reflexivity|]); simpl.
    + split; [by right; right|]. split; [split; [done|lia]|].
      split; [done|]. by intros (data & Hd).
    + split; [by left|]. split; [split; [done|lia]|].
      split; [by eexists|done].
Qed.

(** ** The tools of the agent *)







(** ** The HTTP routes *)

(** X9: the query route never throws and validates before it does anything.
    A missing or empty query is answered 400 "Query is required", even when
    the access token is missing too; a query without access token is answered
    401; in both cases the state is left untouched (no connection is opened
    and the capture variables are not even cleared).  The status is 200
    exactly when the body is the response envelope, which is then the one
    [processNaturalLanguageQuery] returned. *)
Theorem query_route_validates_first (model : string -> Agent.Run)
    (query accessToken : option string) (w : World) :
  exists response,
    fst (QueryRoute.POST model query accessToken w) = inr response
    /\ (Js.truthy query = false ->
        response = {| QueryRoute.body := QueryRoute.ErrorBody "Query is required";
                      QueryRoute.status := 400 |}
        /\ snd (QueryRoute.POST model query accessToken w) = w)
    /\ (Js.truthy query = true -> Js.truthy accessToken = false ->
        response = {| QueryRoute.body :=
                        QueryRoute.ErrorBody "Access token is required";
                      QueryRoute.status := 401 |}
        /\ snd (QueryRoute.POST model query accessToken w) = w)
    /\ (QueryRoute.status response = 200 <->
        exists envelope, QueryRoute.body response = QueryRoute.EnvelopeBody envelope)
    /\ (forall envelope q t,
          QueryRoute.body response = QueryRoute.EnvelopeBody envelope ->
          query = Some q -> accessToken = Some t ->
          fst (Agent.processNaturalLanguageQuery model q t w) = inr envelope).
Proof.
  unfold QueryRoute.POST, try_catch.
  destruct query as [[|c q]|]; simpl;
    try (eexists; split; [reflexivity|]; simpl;
         repeat split; try done; by intros (envelope & He)).
  destruct accessToken as [[|c' t]|]; simpl;
    try (eexists; split; [reflexivity|]; simpl;
         repeat split; try done; by intros (envelope & He)).
  unfold bind.
  destruct (Agent.processNaturalLanguageQuery model (String c q) (String c' t) w)
    as [[e|envelope] w'] eqn:Hrun; simpl; eexists; (split; [reflexivity|]); simpl.
  - repeat split; try done. by intros (envelope & He).
  - repeat split; try done; [by eexists|].
    intros envelope' q' t' [= <-] [= <-] [= <-]. by rewrite Hrun.
Qed.




(** ** The attraction selector *)

Lemma filter_other_absent (id : string) (ids : list string) :
  id ∉ ids -> filter (fun selectedId => selectedId ≠ id) ids = ids.
Proof.
  induction ids as [|x ids IH]; [done|].
  intros Hid. apply not_elem_of_cons in Hid as [Hx Hids].
  rewrite filter_cons_True by done. by rewrite IH.
Qed.

Lemma filter_other_present (id : string) (ids : list string) :
  NoDup ids -> id ∈ ids ->
  filter (fun selectedId => selectedId ≠ id) ids ++ [id] ≡ₚ ids
  /\ S (length (filter (fun selectedId => selectedId ≠ id) ids)) = length ids.
Proof.
  induction ids as [|x ids IH]; [by intros _ ?%elem_of_nil|].
  intros [Hx Hnd]%NoDup_cons Hid.
  destruct (decide (x = id)) as [->|Hne].
  - rewrite filter_cons_False by (by intros ?).
    rewrite (filter_other_absent _ _ Hx). split; [|done].
    by rewrite Permutation_app_comm.
  - rewrite filter_cons_True by done.
    apply elem_of_cons in Hid as [->|Hid]; [done|].
    destruct (IH Hnd Hid) as [Hp Hl]. split.
    + simpl. by rewrite Hp.
    + simpl. by rewrite Hl.
Qed.

(** X11: toggling an attraction flips the membership of that attraction and
    of no other: the toggled [id] is in the new selection exactly when it was
    not in the old one, every other id is in the new selection exactly when
    it was in the old one, and the other ids keep their order (and their
    multiplicity). *)
Theorem handleToggle_flips_only_id (selectedIds : list string) (id : string) :
  (id ∈ AttractionSelector.handleToggle selectedIds id <-> id ∉ selectedIds)
  /\ (forall other, other ≠ id ->
        other ∈ AttractionSelector.handleToggle selectedIds id <->
        other ∈ selectedIds)
  /\ filter (fun selectedId => selectedId ≠ id)
        (AttractionSelector.handleToggle selectedIds id)
     = filter (fun selectedId => selectedId ≠ id) selectedIds.
Proof.
  unfold AttractionSelector.handleToggle.
  destruct (decide (id ∈ selectedIds)) as [Hin|Hout]; repeat split.
  - by intros [? _]%list_elem_of_filter.
  - done.
  - by intros [_ ?]%list_elem_of_filter.
  - intros ?. by apply list_elem_of_filter.
  - rewrite list_filter_filter. apply list_filter_iff. intros x. tauto.
  - done.
  - intros _. apply elem_of_app. right. by apply list_elem_of_singleton.
  - intros [?|?%list_elem_of_singleton]%elem_of_app; done.
  - intros ?. apply elem_of_app. by left.
  - rewrite filter_app, filter_cons_False by (by intros ?).
    by rewrite filter_nil, app_nil_r.
Qed.

(** X12: on a selection without repetition, toggling keeps the selection free
    of repetition and changes its size by exactly one (one less when the id
    was selected, one more when it was not), and toggling the same id twice
    gives the ids of the original selection back: the same list when the id
    was not selected, and a rearrangement of it (the id moved to the end)
    when it was. *)
Theorem handleToggle_twice (selectedIds : list string) (id : string) :
  NoDup selectedIds ->
  NoDup (AttractionSelector.handleToggle selectedIds id)
  /\ length (AttractionSelector.handleToggle selectedIds id)
     = (if decide (id ∈ selectedIds)
        then Nat.pred (length selectedIds) else S (length selectedIds))
  /\ AttractionSelector.handleToggle
       (AttractionSelector.handleToggle selectedIds id) id ≡ₚ selectedIds
  /\ (id ∉ selectedIds ->
      AttractionSelector.handleToggle
        (AttractionSelector.handleToggle selectedIds id) id = selectedIds)
  /\ (id ∈ selectedIds ->
      AttractionSelector.handleToggle
        (AttractionSelector.handleToggle selectedIds id) id
      = filter (fun selectedId => selectedId ≠ id) selectedIds ++ [id]).
Proof.
  intros Hnd.
  unfold AttractionSelector.handleToggle in *.
  destruct (decide (id ∈ selectedIds)) as [Hin|Hout].
  - destruct (filter_other_present id selectedIds Hnd Hin) as [Hp Hl].
    rewrite decide_False by (by intros [? _]%list_elem_of_filter).
    split; [by apply NoDup_filter|]. split; [by rewrite <- Hl|]. by repeat split.
  - rewrite decide_True
      by (apply elem_of_app; right; by apply list_elem_of_singleton).
    rewrite filter_app, filter_cons_False by (by intros ?).
    rewrite filter_nil, app_nil_r, (filter_other_absent _ _ Hout).
    repeat split; try done.
    + apply NoDup_app. repeat split; [done| |apply NoDup_singleton].
      by intros x Hx ->%list_elem_of_singleton.
    + rewrite length_app. simpl. lia.
Qed.

Lemma handleToggle_twice_witness :
  AttractionSelector.handleToggle
    (AttractionSelector.handleToggle ["white-house"; "capitol"] "white-house")
    "white-house" ≡ₚ ["white-house"; "capitol"].
Proof.
  apply (handleToggle_twice ["white-house"; "capitol"] "white-house").
  apply NoDup_cons. split; [by intros [=]%list_elem_of_singleton|].
  apply NoDup_singleton.
Defined.

(** ** Query strings *)

Lemma serialized_byte_decode (c : ascii) (t : string) :
  Js.urlencoded_decode (serialized_byte c +:+ t) = String c (Js.urlencoded_decode t).
Proof. by destruct c as [[] [] [] [] [] [] [] []]. Qed.

Lemma serialized_byte_lacks (c : ascii) :
  lacks "&" (serialized_byte c) = true
  /\ lacks "=" (serialized_byte c) = true
  /\ lacks "?" (serialized_byte c) = true
  /\ lacks "#" (serialized_byte c) = true.
Proof. by destruct c as [[] [] [] [] [] [] [] []]. Qed.

Lemma urlencoded_round_trip (s : string) :
  Js.urlencoded_decode (Js.urlencoded_serialize s) = s.
Proof.
  induction s as [|c s IH]; [done|].
  change (Js.urlencoded_serialize (String c s))
    with (serialized_byte c +:+ Js.urlencoded_serialize s).
  by rewrite serialized_byte_decode, IH.
Qed.

Lemma lacks_app (sep : ascii) (a b : string) :
  lacks sep (a +:+ b) = lacks sep a && lacks sep b.
Proof.
  induction a as [|c a IH]; [done|].
  change (lacks sep (String c (a +:+ b)) = lacks sep (String c a) && lacks sep b).
  simpl. by rewrite IH, andb_assoc.
Qed.

Lemma urlencoded_serialize_lacks (s : string) :
  lacks "&" (Js.urlencoded_serialize s) = true
  /\ lacks "=" (Js.urlencoded_serialize s) = true
  /\ lacks "?" (Js.urlencoded_serialize s) = true
  /\ lacks "#" (Js.urlencoded_serialize s) = true.
Proof.
  induction s as [|c s (IH1 & IH2 & IH3 & IH4)]; [done|].
  change (Js.urlencoded_serialize (String c s))
    with (serialized_byte c +:+ Js.urlencoded_serialize s).
  rewrite !lacks_app, IH1, IH2, IH3, IH4.
  by destruct (serialized_byte_lacks c) as (-> & -> & -> & ->).
Qed.

Lemma split_on_lacks (sep : ascii) (a : string) :
  lacks sep a = true -> Js.split_on sep a = [a].
Proof.
  induction a as [|c a IH]; [done|].
  simpl. intros [Hc Ha]%andb_prop.
  apply negb_true_iff in Hc. by rewrite Hc, (IH Ha).
Qed.

Lemma split_on_sep (sep : ascii) (a rest : string) :
  lacks sep a = true ->
  Js.split_on sep (a +:+ String sep rest) = a :: Js.split_on sep rest.
Proof.
  induction a as [|c a IH].
  - intros _. change (Js.split_on sep (String sep rest) = "" :: Js.split_on sep rest).
    simpl. by rewrite Ascii.eqb_refl.
  - simpl. intros [Hc Ha]%andb_prop. apply negb_true_iff in Hc.
    change (Js.split_on sep (String c (a +:+ String sep rest))
            = String c a :: Js.split_on sep rest).
    simpl. by rewrite Hc, (IH Ha).
Qed.

Lemma split_first_sep (sep : ascii) (a b : string) :
  lacks sep a = true -> Js.split_first sep (a +:+ String sep b) = (a, b).
Proof.
  induction a as [|c a IH].
  - intros _. change (Js.split_first sep (String sep b) = ("", b)).
    simpl. by rewrite Ascii.eqb_refl.
  - simpl. intros [Hc Ha]%andb_prop. apply negb_true_iff in Hc.
    change (Js.split_first sep (String c (a +:+ String sep b)) = (String c a, b)).
    simpl. by rewrite Hc, (IH Ha).
Qed.

Lemma piece_lacks (entry : string * string) :
  lacks "&" (piece entry) = true
  /\ lacks "?" (piece entry) = true
  /\ lacks "#" (piece entry) = true.
Proof.
  unfold piece.
  destruct (urlencoded_serialize_lacks entry.1) as (H1 & _ & H2 & H3).
  destruct (urlencoded_serialize_lacks entry.2) as (H4 & _ & H5 & H6).
  rewrite !lacks_app. simpl. by rewrite H1, H2, H3, H4, H5, H6.
Qed.

Lemma piece_not_empty (entry : string * string) : String.eqb (piece entry) "" = false.
Proof. unfold piece. by destruct (Js.urlencoded_serialize entry.1). Qed.

Lemma piece_decode (entry : string * string) :
  (let '(k, v) := Js.split_first "=" (piece entry) in
   (Js.urlencoded_decode k, Js.urlencoded_decode v)) = entry.
Proof.
  unfold piece.
  rewrite split_first_sep by apply urlencoded_serialize_lacks.
  rewrite !urlencoded_round_trip. by destruct entry.
Qed.

Lemma URLSearchParams_toString_cons (entry next : string * string)
    (rest : list (string * string)) :
  Js.URLSearchParams_toString (entry :: next :: rest) =
  piece entry +:+ String "&" (Js.URLSearchParams_toString (next :: rest)).
Proof.
  destruct entry as [k v]. unfold piece.
  change (Js.URLSearchParams_toString ((k, v) :: next :: rest))
    with (Js.urlencoded_serialize k +:+ "=" +:+ Js.urlencoded_serialize v +:+ "&"
          +:+ Js.URLSearchParams_toString (next :: rest)).
  simpl fst. simpl snd.
  change (String "=" (Js.urlencoded_serialize v))
    with ("=" +:+ Js.urlencoded_serialize v).
  by rewrite !append_assoc.
Qed.

Lemma URLSearchParams_toString_one (entry : string * string) :
  Js.URLSearchParams_toString [entry] = piece entry.
Proof. by destruct entry. Qed.

Lemma URLSearchParams_toString_pieces (entry : string * string)
    (rest : list (string * string)) :
  Js.split_on "&" (Js.URLSearchParams_toString (entry :: rest))
  = map piece (entry :: rest)
  /\ lacks "?" (Js.URLSearchParams_toString (entry :: rest)) = true
  /\ lacks "#" (Js.URLSearchParams_toString (entry :: rest)) = true.
Proof.
  revert entry. induction rest as [|next rest IH]; intros entry.
  - rewrite URLSearchParams_toString_one.
    split; [|apply piece_lacks]. apply split_on_lacks, piece_lacks.
  - rewrite URLSearchParams_toString_cons.
    destruct (IH next) as (Hs & Hl & Hh). split; [|split].
    + rewrite split_on_sep by apply piece_lacks. by rewrite Hs.
    + rewrite lacks_app. destruct (piece_lacks entry) as (_ & -> & _). exact Hl.
    + rewrite lacks_app. destruct (piece_lacks entry) as (_ & _ & ->). exact Hh.
Qed.

(** Parsing a serialized query gives the entries back, whatever bytes their
    names and values hold. *)
Lemma URLSearchParams_round_trip (entries : list (string * string)) :
  Js.URLSearchParams (Js.URLSearchParams_toString entries) = entries.
Proof.
  destruct entries as [|entry rest]; [done|].
  destruct (URLSearchParams_toString_pieces entry rest) as (Hs & Hl & _).
  unfold Js.URLSearchParams.
  assert (match Js.URLSearchParams_toString (entry :: rest) with
          | "" => ""
          | String c rest' =>
              if Ascii.eqb c "?" then rest'
              else Js.URLSearchParams_toString (entry :: rest)
          end = Js.URLSearchParams_toString (entry :: rest)) as ->.
  { destruct (Js.URLSearchParams_toString (entry :: rest)) as [|c t]; [done|].
    simpl in Hl. apply andb_prop in Hl as [Hc _].
    apply negb_true_iff in Hc. by rewrite Hc. }
  rewrite Hs. clear Hs Hl.
  induction (entry :: rest) as [|e es IH]; [done|].
  rewrite map_cons, filter_cons_True by (by rewrite piece_not_empty).
  rewrite map_cons, IH. f_equal. apply piece_decode.
Qed.

(** ** The authorization URL and the token request *)

(** X13: the authorization URL is the authorization endpoint, a question mark
    and a query without [?] or [#] in it, and that query parses back to
    exactly the five parameters, in order: whatever bytes the state and the
    client id hold (an [&], an [=], a [#], a space), they reach the
    authorization server unchanged and cannot add or replace a parameter. *)
Theorem authorization_url_parses_back (env : OAuth.Env) (state : string)
    (clientId : option string) :
  exists query,
    OAuth.getAuthorizationUrl env state clientId
    = "https://api.mapbox.com/oauth/authorize?" +:+ query
    /\ lacks "?" query = true /\ lacks "#" query = true
    /\ Js.URLSearchParams query
       = [("response_type", "code");
          ("client_id",
           Js.or_default clientId
             (Js.or_default (OAuth.NEXT_PUBLIC_MAPBOX_OAUTH_CLIENT_ID env) ""));
          ("redirect_uri",
           Js.or_default (OAuth.NEXT_PUBLIC_OAUTH_REDIRECT_URI env)
             "http://localhost:3000/auth/callback");
          ("scope", "styles:tiles styles:read fonts:read datasets:read");
          ("state", state)].
Proof.
  eexists. split; [|split; [|split]].
  - unfold OAuth.getAuthorizationUrl. rewrite <- append_assoc. reflexivity.
  - apply URLSearchParams_toString_pieces.
  - apply URLSearchParams_toString_pieces.
  - by rewrite URLSearchParams_round_trip.
Qed.

Lemma clientStorage_get_some (b : OAuth.Browser) (credentials : OAuth.Credentials) :
  OAuth.clientStorage.get b = Some credentials ->
  exists c1 id c2 secret,
    credentials = {| OAuth.client_id := String c1 id;
                     OAuth.client_secret := String c2 secret |}
    /\ OAuth.localStorage b !! "mapbox_oauth_client_id" = Some (String c1 id)
    /\ OAuth.localStorage b !! "mapbox_oauth_client_secret" = Some (String c2 secret).
Proof.
  unfold OAuth.clientStorage.get.
  destruct (OAuth.localStorage b !! "mapbox_oauth_client_id") as [[|c1 id]|];
    destruct (OAuth.localStorage b !! "mapbox_oauth_client_secret") as [[|c2 secret]|];
    simpl; try done.
  intros [= <-]. by exists c1, id, c2, secret.
Qed.

(** X14: the token exchange.  Without stored credentials and without a
    configured client id it throws "No client ID available for token exchange"
    before any request is made.  Otherwise it makes exactly one request, a
    form POST to the token endpoint, whose body parses back to the grant type,
    the code as it was given (whatever bytes it holds), the client id and the
    redirect URI; stored credentials take precedence over the configured
    client id, and the client secret is sent exactly when credentials are
    stored.  The outcome is the parsed answer, or an error for a network
    failure or an answer that is not ok. *)
Theorem exchangeCodeForToken_request (env : OAuth.Env)
    (token_endpoint :
       list OAuth.FetchRequest -> OAuth.FetchRequest ->
       Js.error + OAuth.Response OAuth.TokenData)
    (code : string) (b : OAuth.Browser) :
  let run := OAuth.exchangeCodeForToken env token_endpoint code b in
  let request (form : string) :=
    {| OAuth.url := "https://mcp.mapbox.com/oauth/token";
       OAuth.method := "POST";
       OAuth.content_type := "application/x-www-form-urlencoded";
       OAuth.body := OAuth.Form form |} in
  let sent (clientId : string) (secret : list (string * string)) :=
    exists form,
      run.2 = OAuth.set_fetched (OAuth.fetched b ++ [request form]) b
      /\ Js.URLSearchParams form
         = [("grant_type", "authorization_code");
            ("code", code);
            ("client_id", clientId);
            ("redirect_uri",
             Js.or_default (OAuth.NEXT_PUBLIC_OAUTH_REDIRECT_URI env)
               "http://localhost:3000/auth/callback")] ++ secret
      /\ run.1 = match token_endpoint (OAuth.fetched b) (request form) with
                 | inl e => inl e
                 | inr (OAuth.NotOk text) =>
                     inl (Js.Error ("Failed to exchange code for token: " +:+ text))
                 | inr (OAuth.Ok data) => inr data
                 end in
  match OAuth.clientStorage.get b with
  | Some credentials =>
      sent (OAuth.client_id credentials)
           [("client_secret", OAuth.client_secret credentials)]
  | None =>
      match OAuth.NEXT_PUBLIC_MAPBOX_OAUTH_CLIENT_ID env with
      | Some (String c id) => sent (String c id) []
      | _ => run = (inl (Js.Error "No client ID available for token exchange"), b)
      end
  end.
Proof.
  intros run request sent. subst run sent.
  unfold OAuth.exchangeCodeForToken.
  destruct (OAuth.clientStorage.get b) as [credentials|] eqn:Hget.
  - apply clientStorage_get_some in Hget as (c1 & id & c2 & secret & -> & _).
    cbn -[Js.URLSearchParams_toString Js.URLSearchParams].
    match goal with |- context [OAuth.Form ?f] => exists f end.
    destruct (token_endpoint _ _) as [e|[data|text]];
      (split; [reflexivity|split; [apply URLSearchParams_round_trip|reflexivity]]).
  - cbn -[Js.URLSearchParams_toString Js.URLSearchParams].
    destruct (OAuth.NEXT_PUBLIC_MAPBOX_OAUTH_CLIENT_ID env) as [[|c id]|];
      cbn -[Js.URLSearchParams_toString Js.URLSearchParams]; try done.
    match goal with |- context [OAuth.Form ?f] => exists f end.
    destruct (token_endpoint _ _) as [e|[data|text]];
      (split; [reflexivity|split; [apply URLSearchParams_round_trip|reflexivity]]).
Qed.

(** ** Signing in *)

Lemma getAuthorizationUrl_query (env : OAuth.Env) (state : string)
    (clientId : option string) :
  OAuth.getAuthorizationUrl env state clientId
  = "https://api.mapbox.com/oauth/authorize?"
    +:+ Js.URLSearchParams_toString
          [("response_type", "code");
           ("client_id",
            Js.or_default clientId
              (Js.or_default (OAuth.NEXT_PUBLIC_MAPBOX_OAUTH_CLIENT_ID env) ""));
           ("redirect_uri",
            Js.or_default (OAuth.NEXT_PUBLIC_OAUTH_REDIRECT_URI env)
              "http://localhost:3000/auth/callback");
           ("scope", "styles:tiles styles:read fonts:read datasets:read");
           ("state", state)].
Proof. unfold OAuth.getAuthorizationUrl. by rewrite <- append_assoc. Qed.

(** [handleLogin] when the client is known: nothing is requested. *)
Lemma handleLogin_without_registration (env : OAuth.Env)
    (registration_endpoint :
       list OAuth.FetchRequest -> OAuth.FetchRequest ->
       Js.error + OAuth.Response OAuth.Credentials)
    (nonce : string) (b : OAuth.Browser) :
  Js.defined (OAuth.clientStorage.get b)
  || Js.truthy (OAuth.NEXT_PUBLIC_MAPBOX_OAUTH_CLIENT_ID env) = true ->
  OAuth.handleLogin env registration_endpoint nonce b
  = OAuth.mkBrowser (OAuth.fetched b)
      (<["oauth_state" := nonce]> (OAuth.sessionStorage b))
      (OAuth.localStorage b) (OAuth.location b)
      (Some (OAuth.getAuthorizationUrl env nonce
               (Some (Js.or_default
                        (Js.or (option_map OAuth.client_id (OAuth.clientStorage.get b))
                               (OAuth.NEXT_PUBLIC_MAPBOX_OAUTH_CLIENT_ID env)) ""))))
      (OAuth.accessToken b) true None.
Proof.
  intros Hknown. unfold OAuth.handleLogin.
  change (OAuth.clientStorage.get (OAuth.setError None (OAuth.setLoading true b)))
    with (OAuth.clientStorage.get b).
  apply orb_true_iff in Hknown.
  destruct (OAuth.clientStorage.get b) as [credentials|]; [done|].
  destruct Hknown as [?|Hknown]; [done|]. simpl. by rewrite Hknown.
Qed.

(** [handleLogin] when the client is not known: one registration request. *)
Lemma handleLogin_with_registration (env : OAuth.Env)
    (registration_endpoint :
       list OAuth.FetchRequest -> OAuth.FetchRequest ->
       Js.error + OAuth.Response OAuth.Credentials)
    (nonce : string) (b : OAuth.Browser) :
  OAuth.clientStorage.get b = None ->
  Js.truthy (OAuth.NEXT_PUBLIC_MAPBOX_OAUTH_CLIENT_ID env) = false ->
  exists request,
    OAuth.fetched (OAuth.handleLogin env registration_endpoint nonce b)
    = OAuth.fetched b ++ [request]
    /\ OAuth.handleLogin env registration_endpoint nonce b
       = match (OAuth.registerOAuthClient env registration_endpoint
                  "DC Tour Planner" b).1 with
         | inr credentials =>
             OAuth.mkBrowser (OAuth.fetched b ++ [request])
               (<["oauth_state" := nonce]> (OAuth.sessionStorage b))
               (<["mapbox_oauth_client_secret" := OAuth.client_secret credentials]>
                  (<["mapbox_oauth_client_id" := OAuth.client_id credentials]>
                     (OAuth.localStorage b)))
               (OAuth.location b)
               (Some (OAuth.getAuthorizationUrl env nonce
                        (Some (Js.or_default (Some (OAuth.client_id credentials)) ""))))
               (OAuth.accessToken b) true (Some "Registering OAuth client...")
         | inl e =>
             OAuth.mkBrowser (OAuth.fetched b ++ [request])
               (OAuth.sessionStorage b) (OAuth.localStorage b) (OAuth.location b)
               (OAuth.href b) (OAuth.accessToken b) false (Some (Js.message e))
         end.
Proof.
  intros Hget Henv. unfold OAuth.handleLogin.
  change (OAuth.clientStorage.get (OAuth.setError None (OAuth.setLoading true b)))
    with (OAuth.clientStorage.get b).
  rewrite Hget, Henv. unfold OAuth.registerOAuthClient. simpl.
  match goal with |- context [registration_endpoint _ ?r] => exists r end.
  destruct (registration_endpoint _ _) as [e|[credentials|text]]; simpl;
    (split; [done|]); try done.
  unfold Js.or. destruct (OAuth.client_id credentials) as [|c id]; simpl; [|done].
  by destruct (OAuth.NEXT_PUBLIC_MAPBOX_OAUTH_CLIENT_ID env) as [[|c id]|].
Qed.

(** X15: a login either navigates or fails cleanly.  Started on a page that
    has not navigated yet, [handleLogin] ends in one of two ways.  Either the
    browser is sent to the authorization endpoint, and then the [state] in
    the query of that URL is the value stored under [oauth_state] in session
    storage (the generated nonce), and the page is left loading.  Or the
    client was unknown and its registration failed: then nothing was stored
    (neither [oauth_state] nor credentials), the browser stays where it is,
    loading is switched off and the error message is shown; the failed
    registration is the only request made. *)
Theorem handleLogin_navigates_or_fails (env : OAuth.Env)
    (registration_endpoint :
       list OAuth.FetchRequest -> OAuth.FetchRequest ->
       Js.error + OAuth.Response OAuth.Credentials)
    (nonce : string) (b : OAuth.Browser) :
  OAuth.href b = None ->
  let b' := OAuth.handleLogin env registration_endpoint nonce b in
  (exists query,
      OAuth.href b' = Some ("https://api.mapbox.com/oauth/authorize?" +:+ query)
      /\ Js.get "state" (Js.URLSearchParams query) = Some nonce
      /\ OAuth.sessionStorage b' !! "oauth_state" = Some nonce
      /\ OAuth.loading b' = true)
  \/ (OAuth.href b' = None
      /\ OAuth.sessionStorage b' = OAuth.sessionStorage b
      /\ OAuth.localStorage b' = OAuth.localStorage b
      /\ OAuth.loading b' = false
      /\ (exists e,
            (OAuth.registerOAuthClient env registration_endpoint
               "DC Tour Planner" b).1 = inl e
            /\ OAuth.error b' = Some (Js.message e))
      /\ (exists request, OAuth.fetched b' = OAuth.fetched b ++ [request])).
Proof.
  intros Hhref b'. subst b'.
  destruct (Js.defined (OAuth.clientStorage.get b)
            || Js.truthy (OAuth.NEXT_PUBLIC_MAPBOX_OAUTH_CLIENT_ID env)) eqn:Hknown.
  - left. rewrite (handleLogin_without_registration _ _ _ _ Hknown).
    eexists. split; [simpl; by rewrite getAuthorizationUrl_query|].
    rewrite URLSearchParams_round_trip. split; [done|split; [|done]].
    simpl. by rewrite lookup_insert_eq.
  - apply orb_false_iff in Hknown as [Hget Henv].
    assert (OAuth.clientStorage.get b = None) as Hnone
      by (by destruct (OAuth.clientStorage.get b)).
    destruct (handleLogin_with_registration env registration_endpoint nonce b
                Hnone Henv) as (request & _ & ->).
    destruct (OAuth.registerOAuthClient _ _ _ _).1 as [e|credentials].
    + right. simpl. repeat split; try done; by eexists.
    + left. eexists. split; [simpl; by rewrite getAuthorizationUrl_query|].
      rewrite URLSearchParams_round_trip. split; [done|split; [|done]].
      simpl. by rewrite lookup_insert_eq.
Qed.

Lemma handleLogin_navigates_or_fails_witness :
  OAuth.href
    (OAuth.handleLogin Scenario.unconfigured Scenario.closed_registration
       "r4nd0m" Scenario.opened) = None
  /\ OAuth.error
       (OAuth.handleLogin Scenario.unconfigured Scenario.closed_registration
          "r4nd0m" Scenario.opened)
     = Some "Failed to register OAuth client: registration is closed".
Proof.
  destruct (handleLogin_navigates_or_fails Scenario.unconfigured
              Scenario.closed_registration "r4nd0m" Scenario.opened eq_refl)
    as [(query & Hhref & _)|(Hhref & _)].
  - discriminate Hhref.
  - split; [exact Hhref|reflexivity].
Defined.

(** X16: a client is registered once, if the authorization server answers
    with a client id and a client secret.  When the client is unknown (no
    stored credentials, no configured client id) and the registration
    succeeds, the login makes exactly one request and stores what it got;
    the stored credentials are visible afterwards exactly when neither part
    is empty.  If they are, every later login, on whatever page, makes no
    request and sends the registered client id to the authorization endpoint;
    if the server left the secret (or the id) empty, every later login
    registers again. *)
Theorem registration_is_reused (env : OAuth.Env)
    (registration_endpoint :
       list OAuth.FetchRequest -> OAuth.FetchRequest ->
       Js.error + OAuth.Response OAuth.Credentials)
    (nonce : string) (b : OAuth.Browser) (credentials : OAuth.Credentials) :
  OAuth.clientStorage.get b = None ->
  Js.truthy (OAuth.NEXT_PUBLIC_MAPBOX_OAUTH_CLIENT_ID env) = false ->
  (OAuth.registerOAuthClient env registration_endpoint "DC Tour Planner" b).1
  = inr credentials ->
  let b1 := OAuth.handleLogin env registration_endpoint nonce b in
  length (OAuth.fetched b1) = S (length (OAuth.fetched b))
  /\ OAuth.clientStorage.get b1
     = (if complete credentials then Some credentials else None)
  /\ (forall nonce' target,
        let b2 :=
          OAuth.handleLogin env registration_endpoint nonce'
            (OAuth.navigate target b1) in
        if complete credentials
        then OAuth.fetched b2 = OAuth.fetched b1
             /\ OAuth.href b2
                = Some (OAuth.getAuthorizationUrl env nonce'
                          (Some (OAuth.client_id credentials)))
        else length (OAuth.fetched b2) = S (length (OAuth.fetched b1))).
Proof.
  intros Hget Henv Hreg b1.
  destruct (handleLogin_with_registration env registration_endpoint nonce b
              Hget Henv) as (request & _ & Hrun).
  rewrite Hreg in Hrun.
  assert (OAuth.clientStorage.get b1
          = (if complete credentials then Some credentials else None)) as Hstored.
  { subst b1. rewrite Hrun. unfold OAuth.clientStorage.get, complete. simpl.
    rewrite lookup_insert_eq, lookup_insert_ne, lookup_insert_eq by done.
    by destruct credentials as [[|c1 id] [|c2 secret]]. }
  split; [|split; [exact Hstored|]].
  - subst b1. rewrite Hrun. simpl. rewrite length_app. simpl. lia.
  - intros nonce' target b2.
    assert (OAuth.clientStorage.get (OAuth.navigate target b1)
            = OAuth.clientStorage.get b1) as Hnav by done.
    destruct (complete credentials) eqn:Hcomplete.
    + subst b2. rewrite handleLogin_without_registration
        by (by rewrite Hnav, Hstored).
      rewrite Hnav, Hstored. simpl. split; [done|].
      unfold complete in Hcomplete.
      by destruct (OAuth.client_id credentials).
    + destruct (handleLogin_with_registration env registration_endpoint nonce'
                  (OAuth.navigate target b1)) as (request' & Hfetched & _).
      * by rewrite Hnav, Hstored.
      * done.
      * subst b2. rewrite Hfetched, length_app. simpl. lia.
Qed.

Lemma registration_is_reused_witness :
  OAuth.fetched
    (OAuth.handleLogin Scenario.unconfigured Scenario.open_registration "second"
       (OAuth.navigate {| OAuth.pathname := "/"; OAuth.search := ""; OAuth.hash := "" |}
          (OAuth.handleLogin Scenario.unconfigured Scenario.open_registration
             "first" Scenario.opened)))
  = OAuth.fetched
      (OAuth.handleLogin Scenario.unconfigured Scenario.open_registration
         "first" Scenario.opened).
Proof.
  exact (proj1 (proj2 (proj2 (registration_is_reused Scenario.unconfigured
                                Scenario.open_registration "first" Scenario.opened
                                {| OAuth.client_id := "registered-client";
                                   OAuth.client_secret := "registered-secret" |}
                                eq_refl eq_refl eq_refl))
                  "second"
                  {| OAuth.pathname := "/"; OAuth.search := ""; OAuth.hash := "" |})).
Defined.

(** ** The session *)

(** The token exchange changes nothing in the browser but the list of
    requests made. *)
Lemma exchangeCodeForToken_browser (env : OAuth.Env)
    (token_endpoint : list OAuth.FetchRequest -> OAuth.FetchRequest ->
                      Js.error + OAuth.Response OAuth.TokenData)
    (code : string) (b : OAuth.Browser) :
  exists requests,
    (OAuth.exchangeCodeForToken env token_endpoint code b).2
    = OAuth.set_fetched requests b.
Proof.
  unfold OAuth.exchangeCodeForToken.
  destruct (String.eqb _ ""); [by exists (OAuth.fetched b); destruct b|].
  destruct (token_endpoint _ _) as [e|[data|text]]; by eexists.
Qed.

(** What the mount effect leaves: the token in the page state is the stored
    one. *)
Lemma useEffect_token (env : OAuth.Env)
    (token_endpoint : list OAuth.FetchRequest -> OAuth.FetchRequest ->
                      Js.error + OAuth.Response OAuth.TokenData)
    (b : OAuth.Browser) :
  OAuth.accessToken b = None ->
  Js.truthy (OAuth.tokenStorage.get b) = true
  /\ OAuth.useEffect env token_endpoint b
     = OAuth.setAccessToken (OAuth.tokenStorage.get b) b
  \/ Js.truthy (OAuth.tokenStorage.get b) = false
     /\ (OAuth.accessToken (OAuth.useEffect env token_endpoint b)
         = OAuth.tokenStorage.get (OAuth.useEffect env token_endpoint b)
         \/ OAuth.accessToken (OAuth.useEffect env token_endpoint b) = None
            /\ OAuth.tokenStorage.get (OAuth.useEffect env token_endpoint b)
               = OAuth.tokenStorage.get b).
Proof.
  intros Hfresh. unfold OAuth.useEffect.
  destruct (Js.truthy (OAuth.tokenStorage.get b)) eqn:Hstored; [by left|].
  right. split; [done|].
  destruct (negb (String.eqb (OAuth.hash (OAuth.location b)) "")).
  - cbv zeta.
    generalize (Js.URLSearchParams (Js.substring1 (OAuth.hash (OAuth.location b)))).
    intros params.
    destruct (Js.get "access_token" params) as [[|c t]|];
      destruct (Js.get "code" params) as [[|c' code]|];
      try destruct (Js.truthy (Js.get "state" params));
      try (destruct (exchangeCodeForToken_browser env token_endpoint (String c' code)
                       (OAuth.setLoading true b)) as [requests Hb];
           destruct (OAuth.exchangeCodeForToken _ _ _ _) as [[e|data] b'];
           simpl in Hb; subst b');
      cbn [fst snd];
      try (destruct (Js.get "error" _) as [[|c0 e0]|]);
      simpl;
      try (by right);
      left; unfold OAuth.tokenStorage.get; simpl; by rewrite lookup_insert_eq.
  - destruct (Js.get "error" _) as [[|c0 e]|]; by right.
Qed.

(** X17: after the mount effect of a freshly mounted page, the page is signed
    in exactly when a non-empty token is stored in session storage, and the
    token of the page is the stored one, whichever way it was obtained (found
    in storage, taken from the fragment, or exchanged for a code).  A sign-in
    outlives a reload: mounted again at any URL, the page takes the stored
    token, makes no request and leaves the URL as it is, even when the URL
    carries a code, a token or an error. *)
Theorem sign_in_is_stored (env : OAuth.Env)
    (token_endpoint : list OAuth.FetchRequest -> OAuth.FetchRequest ->
                      Js.error + OAuth.Response OAuth.TokenData)
    (b : OAuth.Browser) :
  OAuth.accessToken b = None ->
  let b' := OAuth.useEffect env token_endpoint b in
  Js.truthy (OAuth.accessToken b') = Js.truthy (OAuth.tokenStorage.get b')
  /\ (Js.truthy (OAuth.accessToken b') = true ->
      OAuth.accessToken b' = OAuth.tokenStorage.get b'
      /\ forall target,
          OAuth.useEffect env token_endpoint (OAuth.navigate target b')
          = OAuth.setAccessToken (OAuth.accessToken b') (OAuth.navigate target b')).
Proof.
  intros Hfresh b'.
  assert (Js.truthy (OAuth.accessToken b') = Js.truthy (OAuth.tokenStorage.get b')
          /\ (Js.truthy (OAuth.accessToken b') = true ->
              OAuth.accessToken b' = OAuth.tokenStorage.get b')) as [Hsame Heq].
  { subst b'.
    destruct (useEffect_token env token_endpoint b Hfresh)
      as [[Hstored ->]|[Hstored [Hnew|[Hnone Hkept]]]].
    - done.
    - by rewrite Hnew.
    - rewrite Hnone, Hkept, Hstored. done. }
  split; [done|]. intros Hin. split; [by apply Heq|]. intros target.
  unfold OAuth.useEffect.
  change (OAuth.tokenStorage.get (OAuth.navigate target b'))
    with (OAuth.tokenStorage.get b').
  by rewrite <- Heq, Hin.
Qed.

Lemma sign_in_is_stored_witness :
  OAuth.accessToken
    (OAuth.useEffect Scenario.env Scenario.granting_endpoint
       (OAuth.navigate (OAuth.GET [("code", "granted-code"); ("state", "r4nd0m")])
          Scenario.opened))
  = OAuth.tokenStorage.get
      (OAuth.useEffect Scenario.env Scenario.granting_endpoint
         (OAuth.navigate (OAuth.GET [("code", "granted-code"); ("state", "r4nd0m")])
            Scenario.opened)).
Proof.
  apply (sign_in_is_stored Scenario.env Scenario.granting_endpoint
           (OAuth.navigate (OAuth.GET [("code", "granted-code"); ("state", "r4nd0m")])
              Scenario.opened) eq_refl).
  vm_compute. reflexivity.
Defined.

(** X18: logging out removes the stored token and signs the page out, and it
    empties the query, the answer, the route and the search results; it makes
    no request and keeps the stored client credentials, so the next login
    needs no new registration.  After it the page stays signed out when it is
    loaded again at a URL without fragment and query. *)
Theorem handleLogout_signs_out (env : OAuth.Env)
    (token_endpoint : list OAuth.FetchRequest -> OAuth.FetchRequest ->
                      Js.error + OAuth.Response OAuth.TokenData)
    (h : OAuth.Home) (path : string) :
  let h' := OAuth.handleLogout h in
  let plain := {| OAuth.pathname := path; OAuth.search := ""; OAuth.hash := "" |} in
  OAuth.tokenStorage.get (OAuth.browser h') = None
  /\ OAuth.accessToken (OAuth.browser h') = None
  /\ (OAuth.query h', OAuth.aiResponse h', OAuth.routeData h', OAuth.searchResults h')
     = ("", None, None, [])
  /\ OAuth.fetched (OAuth.browser h') = OAuth.fetched (OAuth.browser h)
  /\ OAuth.clientStorage.get (OAuth.browser h')
     = OAuth.clientStorage.get (OAuth.browser h)
  /\ OAuth.useEffect env token_endpoint (OAuth.navigate plain (OAuth.browser h'))
     = OAuth.navigate plain (OAuth.browser h').
Proof.
  intros h' plain. subst h' plain.
  assert (OAuth.tokenStorage.get (OAuth.browser (OAuth.handleLogout h)) = None)
    as Hcleared.
  { unfold OAuth.tokenStorage.get. simpl. apply lookup_delete_eq. }
  repeat split; try done.
  unfold OAuth.useEffect.
  change (OAuth.tokenStorage.get (OAuth.navigate _ ?b))
    with (OAuth.tokenStorage.get b).
  by rewrite Hcleared.
Qed.

(** ** From the callback to the page *)

Lemma append_nil_r (s : string) : s +:+ "" = s.
Proof.
  induction s as [|c s IH]; [done|].
  change (String c (s +:+ "") = String c s). by rewrite IH.
Qed.

Lemma percent_encode_app (keep : ascii -> bool) (a b : string) :
  Js.percent_encode keep (a +:+ b)
  = Js.percent_encode keep a +:+ Js.percent_encode keep b.
Proof.
  induction a as [|c a IH]; [done|].
  change (Js.percent_encode keep (String c (a +:+ b))
          = Js.percent_encode keep (String c a) +:+ Js.percent_encode keep b).
  simpl. by rewrite IH, append_assoc.
Qed.

Lemma strip_tab_newline_cons (c : ascii) (s : string) :
  OAuth.strip_tab_newline (String c s)
  = OAuth.strip_tab_newline (String c "") +:+ OAuth.strip_tab_newline s.
Proof.
  unfold OAuth.strip_tab_newline. simpl list_ascii_of_string.
  rewrite (filter_cons _ c (list_ascii_of_string s)), (filter_cons _ c []).
  by destruct (decide _).
Qed.

Lemma url_fragment_cons (c : ascii) (s : string) :
  OAuth.url_fragment (String c s)
  = OAuth.url_fragment (String c "") +:+ OAuth.url_fragment s.
Proof.
  unfold OAuth.url_fragment.
  by rewrite strip_tab_newline_cons, percent_encode_app.
Qed.

Lemma url_query_cons (c : ascii) (s : string) :
  OAuth.url_query (String c s) = OAuth.url_query (String c "") +:+ OAuth.url_query s.
Proof.
  unfold OAuth.url_query.
  by rewrite strip_tab_newline_cons, percent_encode_app.
Qed.

Lemma url_fragment_app (a b : string) :
  OAuth.url_fragment (a +:+ b) = OAuth.url_fragment a +:+ OAuth.url_fragment b.
Proof.
  induction a as [|c a IH]; [done|].
  change (OAuth.url_fragment (String c (a +:+ b))
          = OAuth.url_fragment (String c a) +:+ OAuth.url_fragment b).
  by rewrite (url_fragment_cons c a), url_fragment_cons, IH, append_assoc.
Qed.

Lemma url_query_app (a b : string) :
  OAuth.url_query (a +:+ b) = OAuth.url_query a +:+ OAuth.url_query b.
Proof.
  induction a as [|c a IH]; [done|].
  change (OAuth.url_query (String c (a +:+ b))
          = OAuth.url_query (String c a) +:+ OAuth.url_query b).
  by rewrite (url_query_cons c a), url_query_cons, IH, append_assoc.
Qed.

Lemma encode_bytes_decode (enc : ascii -> string) (ok : ascii -> bool) :
  (forall c t, ok c = true ->
     Js.urlencoded_decode (enc c +:+ t) = String c (Js.urlencoded_decode t)) ->
  forall s t, all_bytes ok s = true ->
    Js.urlencoded_decode (encode_bytes enc s +:+ t) = s +:+ Js.urlencoded_decode t.
Proof.
  intros Henc s t. induction s as [|c s IH]; [done|].
  simpl. intros [Hc Hs]%andb_prop.
  rewrite append_assoc, (Henc _ _ Hc), (IH Hs). done.
Qed.

Lemma encode_bytes_lacks (enc : ascii -> string) (ok : ascii -> bool) (sep : ascii) :
  (forall c, ok c = true -> lacks sep (enc c) = true) ->
  forall s, all_bytes ok s = true -> lacks sep (encode_bytes enc s) = true.
Proof.
  intros Henc s. induction s as [|c s IH]; [done|].
  simpl. intros [Hc Hs]%andb_prop.
  by rewrite lacks_app, (Henc _ Hc), (IH Hs).
Qed.

(** A fragment, byte by byte. *)
Lemma url_fragment_bytes (s : string) :
  OAuth.url_fragment s = encode_bytes (fun c => OAuth.url_fragment (String c "")) s.
Proof.
  induction s as [|c s IH]; [done|].
  rewrite url_fragment_cons, IH. done.
Qed.

Lemma url_fragment_byte (c : ascii) (t : string) :
  plain_byte c = true ->
  Js.urlencoded_decode (OAuth.url_fragment (String c "") +:+ t)
  = String c (Js.urlencoded_decode t).
Proof. by destruct c as [[] [] [] [] [] [] [] []]. Qed.

Lemma url_fragment_byte_lacks (c : ascii) :
  plain_byte c = true -> lacks "&" (OAuth.url_fragment (String c "")) = true.
Proof. by destruct c as [[] [] [] [] [] [] [] []]. Qed.

(** The query of the error redirect, byte by byte. *)
Lemma error_query_bytes (s : string) :
  OAuth.url_query (Js.encodeURIComponent s)
  = encode_bytes (fun c => OAuth.url_query (Js.encodeURIComponent (String c ""))) s.
Proof.
  induction s as [|c s IH]; [done|].
  change (Js.encodeURIComponent (String c s))
    with ((if Js.is_alnum c || Js.one_of "-_.!~*'()" c
           then String c "" else Js.percent_byte c)
          +:+ Js.encodeURIComponent s).
  rewrite url_query_app, IH. simpl encode_bytes. f_equal.
  unfold Js.encodeURIComponent. simpl Js.percent_encode. by rewrite append_nil_r.
Qed.

Lemma error_query_byte (c : ascii) (t : string) :
  Js.urlencoded_decode (OAuth.url_query (Js.encodeURIComponent (String c "")) +:+ t)
  = String c (Js.urlencoded_decode t).
Proof. by destruct c as [[] [] [] [] [] [] [] []]. Qed.

Lemma error_query_byte_lacks (c : ascii) :
  lacks "&" (OAuth.url_query (Js.encodeURIComponent (String c ""))) = true.
Proof. by destruct c as [[] [] [] [] [] [] [] []]. Qed.

Lemma url_fragment_decode (s : string) :
  all_bytes plain_byte s = true ->
  Js.urlencoded_decode (OAuth.url_fragment s) = s
  /\ lacks "&" (OAuth.url_fragment s) = true.
Proof.
  intros Hs. rewrite url_fragment_bytes. split.
  - rewrite <- (append_nil_r (encode_bytes _ s)).
    rewrite (encode_bytes_decode _ plain_byte) by (done || apply url_fragment_byte).
    apply append_nil_r.
  - apply (encode_bytes_lacks _ plain_byte); [apply url_fragment_byte_lacks|done].
Qed.

Lemma error_query_decode (s : string) :
  Js.urlencoded_decode (OAuth.url_query (Js.encodeURIComponent s)) = s
  /\ lacks "&" (OAuth.url_query (Js.encodeURIComponent s)) = true.
Proof.
  assert (all_bytes (fun _ => true) s = true) as Hs by (by induction s).
  rewrite error_query_bytes. split.
  - rewrite <- (append_nil_r (encode_bytes _ s)).
    rewrite (encode_bytes_decode _ (fun _ => true))
      by (done || intros; apply error_query_byte).
    apply append_nil_r.
  - apply (encode_bytes_lacks _ (fun _ => true)); [|done].
    intros; apply error_query_byte_lacks.
Qed.

(** The fragment the callback builds from a code and a state parses back to
    them, when they are made of plain bytes. *)
Lemma callback_fragment_parses_back (code state : string) :
  all_bytes plain_byte code = true ->
  all_bytes plain_byte state = true ->
  Js.URLSearchParams
    (Js.substring1
       ("#" +:+ OAuth.url_fragment ("code=" +:+ code +:+ "&state=" +:+ state)))
  = [("code", code); ("state", state)].
Proof.
  intros [Hcode Hcode_amp]%url_fragment_decode [Hstate Hstate_amp]%url_fragment_decode.
  rewrite !url_fragment_app.
  change (OAuth.url_fragment "code=") with "code=".
  change (OAuth.url_fragment "&state=") with "&state=".
  revert Hcode Hcode_amp Hstate Hstate_amp.
  generalize (OAuth.url_fragment code) (OAuth.url_fragment state).
  intros fc fs Hcode Hcode_amp Hstate Hstate_amp.
  change (Js.substring1 ("#" +:+ ("code=" +:+ fc +:+ "&state=" +:+ fs)))
    with ("code=" +:+ (fc +:+ String "&" ("state=" +:+ fs))).
  unfold Js.URLSearchParams.
  change (match "code=" +:+ (fc +:+ String "&" ("state=" +:+ fs)) with
          | "" => ""
          | String c rest =>
              if Ascii.eqb c "?" then rest
              else "code=" +:+ (fc +:+ String "&" ("state=" +:+ fs))
          end) with ("code=" +:+ (fc +:+ String "&" ("state=" +:+ fs))).
  rewrite <- append_assoc.
  rewrite split_on_sep by (by rewrite lacks_app, Hcode_amp).
  rewrite split_on_lacks by (by rewrite lacks_app, Hstate_amp).
  rewrite !filter_cons_True by done. rewrite filter_nil.
  change ("code=" +:+ fc) with ("code" +:+ String "=" fc).
  change ("state=" +:+ fs) with ("state" +:+ String "=" fs).
  cbn [map]. rewrite !split_first_sep by done.
  by rewrite Hcode, Hstate.
Qed.

(** The query of the error redirect parses back to the error, whatever bytes
    it holds. *)
Lemma callback_query_parses_back (error : string) :
  Js.URLSearchParams ("?" +:+ OAuth.url_query ("error=" +:+ Js.encodeURIComponent error))
  = [("error", error)].
Proof.
  destruct (error_query_decode error) as [Herror Herror_amp].
  rewrite url_query_app.
  change (OAuth.url_query "error=") with "error=".
  revert Herror Herror_amp.
  generalize (OAuth.url_query (Js.encodeURIComponent error)).
  intros fe Herror Herror_amp.
  unfold Js.URLSearchParams.
  change (match "?" +:+ ("error=" +:+ fe) with
          | "" => ""
          | String c rest =>
              if Ascii.eqb c "?" then rest else "?" +:+ ("error=" +:+ fe)
          end) with ("error=" +:+ fe).
  rewrite split_on_lacks by (by rewrite lacks_app, Herror_amp).
  rewrite filter_cons_True by done. rewrite filter_nil.
  change ("error=" +:+ fe) with ("error" +:+ String "=" fe).
  cbn [map]. rewrite split_first_sep by done.
  by rewrite Herror.
Qed.

(** The mount effect of a signed-out page, at a URL without fragment and at a
    URL whose fragment carries a code and a state. *)
Lemma useEffect_without_fragment (env : OAuth.Env)
    (token_endpoint : list OAuth.FetchRequest -> OAuth.FetchRequest ->
                      Js.error + OAuth.Response OAuth.TokenData)
    (b : OAuth.Browser) :
  Js.truthy (OAuth.tokenStorage.get b) = false ->
  OAuth.hash (OAuth.location b) = "" ->
  OAuth.useEffect env token_endpoint b
  = match Js.get "error" (Js.URLSearchParams (OAuth.search (OAuth.location b))) with
    | Some (String c e) =>
        OAuth.replaceState_pathname
          (OAuth.setError (Some ("OAuth error: " +:+ String c e)) b)
    | _ => b
    end.
Proof. intros Hstored Hhash. unfold OAuth.useEffect. by rewrite Hstored, Hhash. Qed.

Lemma useEffect_with_code (env : OAuth.Env)
    (token_endpoint : list OAuth.FetchRequest -> OAuth.FetchRequest ->
                      Js.error + OAuth.Response OAuth.TokenData)
    (b : OAuth.Browser) (fragment : string) (c : ascii) (code state : string) :
  Js.truthy (OAuth.tokenStorage.get b) = false ->
  OAuth.location b
  = {| OAuth.pathname := "/"; OAuth.search := ""; OAuth.hash := "#" +:+ fragment |} ->
  Js.URLSearchParams fragment = [("code", String c code); ("state", state)] ->
  Js.truthy (Some state) = true ->
  OAuth.useEffect env token_endpoint b
  = OAuth.exchange_settled
      (OAuth.exchangeCodeForToken env token_endpoint (String c code)
         (OAuth.setLoading true b)).1
      (OAuth.exchangeCodeForToken env token_endpoint (String c code)
         (OAuth.setLoading true b)).2.
Proof.
  intros Hstored Hlocation Hparams Hstate. unfold OAuth.useEffect.
  rewrite Hstored, Hlocation.
  change (Js.substring1 (OAuth.hash
            {| OAuth.pathname := "/"; OAuth.search := "";
               OAuth.hash := "#" +:+ fragment |})) with fragment.
  rewrite Hparams. cbv zeta.
  change (Js.get "access_token" [("code", String c code); ("state", state)])
    with (@None string).
  change (Js.get "code" [("code", String c code); ("state", state)])
    with (Some (String c code)).
  change (Js.get "state" [("code", String c code); ("state", state)])
    with (Some state).
  rewrite Hstate.
  change (negb (String.eqb
                  (OAuth.hash {| OAuth.pathname := "/"; OAuth.search := "";
                                 OAuth.hash := "#" +:+ fragment |}) ""))
    with true.
  cbv iota.
  destruct (exchangeCodeForToken_browser env token_endpoint (String c code)
              (OAuth.setLoading true b)) as [requests Hb].
  destruct (OAuth.exchangeCodeForToken _ _ _ _) as [r b']. simpl in Hb. subst b'.
  cbn [fst snd].
  change (OAuth.location (OAuth.set_fetched requests (OAuth.setLoading true b)))
    with (OAuth.location b).
  by rewrite Hlocation.
Qed.

(** X19: the code the callback receives is the code the page exchanges.  When
    the callback is requested with a code and a state (and no error), both
    made of bytes other than [&], [+], [%], tab, line feed and carriage
    return, a signed-out page loaded at the redirect calls
    [exchangeCodeForToken] with exactly that code, and ends as the exchange
    settles.  (The callback writes the code into the fragment as it is, and
    the page reads the fragment as a query string: the excluded bytes are the
    ones that do not survive that.) *)
Theorem callback_code_reaches_exchange (env : OAuth.Env)
    (token_endpoint : list OAuth.FetchRequest -> OAuth.FetchRequest ->
                      Js.error + OAuth.Response OAuth.TokenData)
    (searchParams : list (string * string))
    (c1 : ascii) (code : string) (c2 : ascii) (state : string) (b : OAuth.Browser) :
  Js.truthy (Js.get "error" searchParams) = false ->
  Js.get "code" searchParams = Some (String c1 code) ->
  Js.get "state" searchParams = Some (String c2 state) ->
  all_bytes plain_byte (String c1 code) = true ->
  all_bytes plain_byte (String c2 state) = true ->
  Js.truthy (OAuth.tokenStorage.get b) = false ->
  let page := OAuth.navigate (OAuth.GET searchParams) b in
  let exchange :=
    OAuth.exchangeCodeForToken env token_endpoint (String c1 code)
      (OAuth.setLoading true page) in
  OAuth.useEffect env token_endpoint page
  = OAuth.exchange_settled exchange.1 exchange.2.
Proof.
  intros Herror Hcode Hstate Hcode_plain Hstate_plain Hstored page exchange.
  subst exchange.
  apply (useEffect_with_code env token_endpoint page
           (OAuth.url_fragment
              ("code=" +:+ String c1 code +:+ "&state=" +:+ String c2 state))
           c1 code (String c2 state)).
  - done.
  - subst page. unfold OAuth.GET. rewrite Hcode, Hstate.
    by destruct (Js.get "error" searchParams) as [[|c e]|].
  - by apply callback_fragment_parses_back.
  - done.
Qed.

Lemma callback_code_reaches_exchange_witness :
  OAuth.useEffect Scenario.env Scenario.granting_endpoint
    (OAuth.navigate (OAuth.GET [("code", "granted-code"); ("state", "r4nd0m")])
       Scenario.opened)
  = OAuth.exchange_settled
      (OAuth.exchangeCodeForToken Scenario.env Scenario.granting_endpoint
         "granted-code"
         (OAuth.setLoading true
            (OAuth.navigate
               (OAuth.GET [("code", "granted-code"); ("state", "r4nd0m")])
               Scenario.opened))).1
      (OAuth.exchangeCodeForToken Scenario.env Scenario.granting_endpoint
         "granted-code"
         (OAuth.setLoading true
            (OAuth.navigate
               (OAuth.GET [("code", "granted-code"); ("state", "r4nd0m")])
               Scenario.opened))).2.
Proof.
  exact (callback_code_reaches_exchange Scenario.env Scenario.granting_endpoint
           [("code", "granted-code"); ("state", "r4nd0m")]
           "g" "ranted-code" "r" "4nd0m" Scenario.opened
           eq_refl eq_refl eq_refl eq_refl eq_refl eq_refl).
Defined.

(** X20: a failed authorization is shown and nothing is requested.  When the
    callback is requested with a non-empty error, whatever bytes it holds, a
    signed-out page loaded at the redirect shows "OAuth error: " followed by
    that very error, even if a code and a state came with it; when the
    callback is requested without error and without a code or a state, the
    page shows "OAuth error: missing_parameters".  In both cases no request is
    made, the page stays signed out, and the error is removed from the URL. *)
Theorem callback_failure_is_shown (env : OAuth.Env)
    (token_endpoint : list OAuth.FetchRequest -> OAuth.FetchRequest ->
                      Js.error + OAuth.Response OAuth.TokenData)
    (searchParams : list (string * string)) (b : OAuth.Browser) :
  Js.truthy (OAuth.tokenStorage.get b) = false ->
  let page := OAuth.navigate (OAuth.GET searchParams) b in
  let shown (message : string) :=
    OAuth.useEffect env token_endpoint page
    = OAuth.mkBrowser (OAuth.fetched b) (OAuth.sessionStorage b) (OAuth.localStorage b)
        {| OAuth.pathname := "/"; OAuth.search := ""; OAuth.hash := "" |}
        None None false (Some ("OAuth error: " +:+ message)) in
  match Js.get "error" searchParams with
  | Some (String c e) => shown (String c e)
  | _ =>
      Js.truthy (Js.get "code" searchParams)
      && Js.truthy (Js.get "state" searchParams) = false ->
      shown "missing_parameters"
  end.
Proof.
  intros Hstored page shown. subst page shown.
  assert (forall error,
            OAuth.GET searchParams
            = {| OAuth.pathname := "/";
                 OAuth.search :=
                   "?" +:+ OAuth.url_query ("error=" +:+ Js.encodeURIComponent error);
                 OAuth.hash := "" |} ->
            error <> "" ->
            OAuth.useEffect env token_endpoint
              (OAuth.navigate (OAuth.GET searchParams) b)
            = OAuth.mkBrowser (OAuth.fetched b) (OAuth.sessionStorage b)
                (OAuth.localStorage b)
                {| OAuth.pathname := "/"; OAuth.search := ""; OAuth.hash := "" |}
                None None false (Some ("OAuth error: " +:+ error))) as Hshown.
  { intros error -> Hne.
    rewrite useEffect_without_fragment by done.
    change (OAuth.search (OAuth.location (OAuth.navigate ?l b))) with (OAuth.search l).
    cbn [OAuth.search]. rewrite callback_query_parses_back.
    by destruct error. }
  unfold OAuth.GET in *.
  destruct (Js.get "error" searchParams) as [[|c e]|].
  - intros Hmissing. apply (Hshown "missing_parameters"); [|done].
    by destruct (Js.get "code" searchParams) as [[|c1 code]|];
      destruct (Js.get "state" searchParams) as [[|c2 state]|].
  - by apply Hshown.
  - intros Hmissing. apply (Hshown "missing_parameters"); [|done].
    by destruct (Js.get "code" searchParams) as [[|c1 code]|];
      destruct (Js.get "state" searchParams) as [[|c2 state]|].
Qed.

Lemma callback_failure_is_shown_witness :
  OAuth.useEffect Scenario.env Scenario.granting_endpoint
    (OAuth.navigate
       (OAuth.GET [("error", "access_denied"); ("code", "granted-code");
                   ("state", "r4nd0m")])
       Scenario.opened)
  = OAuth.mkBrowser [] ∅ ∅
      {| OAuth.pathname := "/"; OAuth.search := ""; OAuth.hash := "" |}
      None None false (Some "OAuth error: access_denied").
Proof.
  exact (callback_failure_is_shown Scenario.env Scenario.granting_endpoint
           [("error", "access_denied"); ("code", "granted-code"); ("state", "r4nd0m")]
           Scenario.opened eq_refl).
Defined.

(** X21: a token in the fragment is taken as it is.  A signed-out page
    loaded at a URL whose fragment is the query string of one parameter
    [access_token] with a non-empty value stores that value, signs in with
    it and removes the fragment from the URL, for every value: no request is
    made, and neither the format of the token ([isValidTokenFormat] is not
    consulted) nor a state is checked. *)
Theorem fragment_token_is_taken_as_is (env : OAuth.Env)
    (token_endpoint : list OAuth.FetchRequest -> OAuth.FetchRequest ->
                      Js.error + OAuth.Response OAuth.TokenData)
    (b : OAuth.Browser) (path : string) (c : ascii) (token : string) :
  Js.truthy (OAuth.tokenStorage.get b) = false ->
  OAuth.location b
  = {| OAuth.pathname := path; OAuth.search := "";
       OAuth.hash :=
         "#" +:+ Js.URLSearchParams_toString [("access_token", String c token)] |} ->
  OAuth.useEffect env token_endpoint b
  = OAuth.mkBrowser (OAuth.fetched b)
      (<["mapbox_mcp_token" := String c token]> (OAuth.sessionStorage b))
      (OAuth.localStorage b)
      {| OAuth.pathname := path; OAuth.search := ""; OAuth.hash := "" |}
      (OAuth.href b) (Some (String c token)) (OAuth.loading b) (OAuth.error b).
Proof.
  intros Hstored Hlocation. unfold OAuth.useEffect.
  rewrite Hstored, Hlocation.
  change (Js.substring1 (OAuth.hash
            {| OAuth.pathname := path; OAuth.search := "";
               OAuth.hash := "#" +:+ ?q |})) with q.
  rewrite URLSearchParams_round_trip. cbv zeta.
  change (Js.get "access_token" [("access_token", String c token)])
    with (Some (String c token)).
  change (negb (String.eqb
                  (OAuth.hash {| OAuth.pathname := path; OAuth.search := "";
                                 OAuth.hash := "#" +:+ ?q |}) ""))
    with true.
  cbv iota. unfold OAuth.replaceState_pathname, OAuth.tokenStorage.set. simpl.
  by rewrite Hlocation.
Qed.

Lemma fragment_token_is_taken_as_is_witness :
  OAuth.isValidTokenFormat "anything at all" = false
  /\ OAuth.accessToken
       (OAuth.useEffect Scenario.env Scenario.granting_endpoint
          (OAuth.navigate
             {| OAuth.pathname := "/"; OAuth.search := "";
                OAuth.hash := "#access_token=anything+at+all" |}
             Scenario.opened))
     = Some "anything at all".
Proof.
  split; [reflexivity|].
  by rewrite (fragment_token_is_taken_as_is Scenario.env Scenario.granting_endpoint
                (OAuth.navigate
                   {| OAuth.pathname := "/"; OAuth.search := "";
                      OAuth.hash := "#access_token=anything+at+all" |}
                   Scenario.opened)
                "/" "a" "nything at all" eq_refl eq_refl).
Defined.
